(** * project-pareto: the toy case study model builder

    A shallow embedding of [pareto/case_studies/toy_case_study.py].

    The Python function [create_model(df_sets, df_parameters)] receives two
    dictionaries by reference, creates a Pyomo [ConcreteModel] and attaches
    sets, parameters, variables and constraints to it by attribute
    assignment.  The embedding keeps that shape: Python objects live in a
    heap, [create_model] is a computation in a state-and-exception monad
    over the heap, and every statement of the source is one line of the
    embedding.

    The Pyomo components the script uses are modelled with the part of
    their behaviour the script can observe:
    - [Set(initialize=...)] adds the labels one by one and skips a label
      that is already a member;
    - [A | B] enumerates [A] and then the members of [B] that are not in [A];
    - [Param(I1, ..., In, default=0, initialize=tbl)] checks every key of
      [tbl] against [I1 x ... x In] and raises [KeyError] for a key outside
      it; a subscript inside the index sets yields the entry, or the
      default where the table has none, and a subscript outside them raises
      [KeyError]; so does a subscript of an indexed variable outside its
      index set;
    - [model.n = component] attaches the component to the model under the
      name [n] and then constructs it, so a component whose construction
      raises stays attached;
    - [Constraint(rule=f)] calls [f(model)];
    - [Constraint(I, rule=f)] depends on the Pyomo release when [f] takes the
      model only, as [DriveTimesEquationRule] does.  Pyomo 5.7 calls
      [f(model, i)] for every [i] of [I], in order, catches the [TypeError]
      of the call and calls [f(model)] instead, so every member gets the
      expression [f(model)].  Pyomo 6.1.2 and later take [f] for a single
      expression and raise [IndexError] before they look at [I].
    The release is a parameter of the embedding.  [setup.py] asks for
    [pyomo] without a version.

    A model records the components the script declares, under the names
    the script gives them.

    Parameters are immutable, so a subscripted parameter is a number and
    the right-hand side of every constraint is the number the rule function
    computed.  The numbers of the tables are Python numbers, integers or
    floats: the embedding is over any type with Python's [0], [+] and [==],
    and assumes no law of them, since floating-point addition is not
    associative.  The integers and the binary64 floats are instances. *)

From Stdlib Require Import ZArith.
From Stdlib Require Import Floats.PrimFloat.
From stdpp Require Import base option list gmap strings.

Local Open Scope string_scope.
Local Open Scope list_scope.

(** ** Numbers *)

(** What the script does with a number: it starts a [sum] from the integer
    [0], adds with [+], and writes [==] between a variable and a number. *)
Class Number (num : Type) : Type := {
  num_zero : num;
  num_add : num → num → num;
  num_eqb : num → num → bool
}.

(** Exact arithmetic: what holds of integers and fails for floats. *)
Class ExactNumber (num : Type) `{Number num} : Prop := {
  num_add_assoc (a b c : num) :
    num_add a (num_add b c) = num_add (num_add a b) c;
  num_add_comm (a b : num) : num_add a b = num_add b a;
  num_add_zero_l (a : num) : num_add num_zero a = a;
  num_eqb_refl (a : num) : num_eqb a a = true
}.

(** Python integers. *)
#[export] Instance Z_Number : Number Z :=
  {| num_zero := 0%Z; num_add := Z.add; num_eqb := Z.eqb |}.

(** Python floats: IEEE 754 binary64, rounding to nearest even; the integer
    [0] enters a sum of floats as [0.0]. *)
#[export] Instance float_Number : Number float :=
  {| num_zero := 0%float; num_add := PrimFloat.add;
     num_eqb := PrimFloat.eqb |}.

(** The integers are exact. *)
#[export] Instance Z_ExactNumber : ExactNumber Z.
Proof.
  split; cbn; intros.
  - lia.
  - lia.
  - done.
  - apply Z.eqb_refl.
Qed.

(** ** Python values and exceptions *)

(** A parameter table: a dict from index tuples to numbers. *)
Abbreviation table num := (gmap (list string) num).

Inductive exn : Type :=
| KeyError (key : string)              (* d[key] with key absent *)
| KeyError_index (component : string)  (* index not valid for component *)
| IndexError (component : string)      (* one expression for many indices *)
| TypeError (callee : string) (given : nat)
| AttributeError (name : string)
| DataFormatError (tab : string)
| FileNotFound (path : string).

Abbreviation result := (sum exn).
Abbreviation Ok := inr (only parsing).
Abbreviation Err := inl (only parsing).

#[export] Instance result_ret : MRet result := λ A a, inr a.
#[export] Instance result_bind : MBind result :=
  λ A B f r, match r with inr a => f a | inl e => inl e end.

#[export] Instance exn_eq_dec : EqDecision exn.
Proof. solve_decision. Defined.

(** ** Pyomo expressions *)

(** [v] or [v[i]]: a scalar variable or a member of an indexed one. *)
Record varref : Type := VarRef { vr_name : string; vr_index : option string }.

(** [lhs == rhs], a variable against a number. *)
Record expr (num : Type) : Type := Equality { lhs : varref; rhs : num }.

Arguments Equality {num} lhs rhs.
Arguments lhs {num} e.
Arguments rhs {num} e.

Notation "v == z" := (Equality v z) (at level 70, no associativity).

#[export] Instance varref_eq_dec : EqDecision varref.
Proof. solve_decision. Defined.

(** The builtin [sum] over a generator expression whose elements are
    numbers: from [0], left to right. *)
Definition sum_over `{Number num} {A : Type} (f : A → num) (xs : list A)
  : num :=
  foldl (λ acc x, num_add acc (f x)) num_zero xs.

(** The builtin [sum] over a generator expression whose elements may
    raise: the first element that raises ends the sum. *)
Definition py_sum `{Number num} {A : Type} (f : A → result num)
    (xs : list A) : result num :=
  foldl (λ acc x, a ← acc; v ← f x; Ok (num_add a v)) (Ok num_zero) xs.

(** ** Pyomo components *)

Inductive domain : Type := NonNegativeReals.

Record ParamData (num : Type) : Type := {
  param_name : string;
  param_index : list (list string);
  param_default : num;
  param_data : table num
}.

Arguments param_name {num} p.
Arguments param_index {num} p.
Arguments param_default {num} p.
Arguments param_data {num} p.

Record VarData : Type := {
  var_index : option (list string);
  var_within : domain
}.

Record ConstraintData (num : Type) : Type := {
  con_index : option (list string);
  con_rule : string;
  con_data : list (option string * expr num)
}.

Arguments con_index {num} c.
Arguments con_rule {num} c.
Arguments con_data {num} c.

Inductive component (num : Type) : Type :=
| CDeclared                      (* attached, construction not finished *)
| CSet (elems : list string)
| CParam (P : ParamData num)
| CVar (V : VarData)
| CConstraint (C : ConstraintData num).

Arguments CDeclared {num}.
Arguments CSet {num} elems.
Arguments CParam {num} P.
Arguments CVar {num} V.
Arguments CConstraint {num} C.

(** A model is a block: its components by name, in declaration order. *)
Abbreviation block num := (list (string * component num)).

Fixpoint block_lookup {num : Type} (n : string) (b : block num)
  : option (component num) :=
  match b with
  | [] => None
  | (k, c) :: b' => if String.eqb k n then Some c else block_lookup n b'
  end.

(** Attribute reads [model.n] inside a rule. *)
Definition get_set {num : Type} (model : block num) (n : string)
  : result (list string) :=
  match block_lookup n model with
  | Some (CSet s) => Ok s
  | Some _ => Err (TypeError n 0)
  | None => Err (AttributeError n)
  end.

Definition get_param {num : Type} (model : block num) (n : string)
  : result (ParamData num) :=
  match block_lookup n model with
  | Some (CParam P) => Ok P
  | Some _ => Err (TypeError n 0)
  | None => Err (AttributeError n)
  end.

(** [model.v] for a scalar variable. *)
Definition get_var {num : Type} (model : block num) (n : string)
  : result varref :=
  match block_lookup n model with
  | Some (CVar V) =>
      match var_index V with
      | None => Ok (VarRef n None)
      | Some _ => Err (TypeError n 0)
      end
  | Some _ => Err (TypeError n 0)
  | None => Err (AttributeError n)
  end.

(** [model.v[i]] for an indexed variable: [KeyError] for an [i] outside the
    index set. *)
Definition get_var_member {num : Type} (model : block num) (n : string)
    (i : string) : result varref :=
  match block_lookup n model with
  | Some (CVar V) =>
      match var_index V with
      | Some idx =>
          if decide (i ∈ idx) then Ok (VarRef n (Some i))
          else Err (KeyError_index n)
      | None => Err (TypeError n 1)
      end
  | Some _ => Err (TypeError n 1)
  | None => Err (AttributeError n)
  end.

(** A key [k] is valid for [Param(I1, ..., In)] when it is in [I1 x ... x In]. *)
Definition valid_index (index : list (list string)) (k : list string) : Prop :=
  Forall2 (λ x s, x ∈ s) k index.

#[export] Instance valid_index_dec (index : list (list string))
    (k : list string) : Decision (valid_index index k).
Proof. unfold valid_index. apply _. Defined.

Definition valid_table {num : Type} (index : list (list string))
    (tbl : table num) : Prop :=
  map_Forall (λ k _, valid_index index k) tbl.

#[export] Instance valid_table_dec {num : Type} (index : list (list string))
    (tbl : table num) : Decision (valid_table index tbl).
Proof. unfold valid_table. apply _. Defined.

(** The value of a parameter at a key of its index sets: the entry, or the
    default where the table has none. *)
Definition param_value {num : Type} (P : ParamData num) (k : list string)
  : num :=
  default (param_default P) (param_data P !! k).

(** [P[k]]: [KeyError] for a key outside the index sets. *)
Definition Param_getitem {num : Type} (P : ParamData num) (k : list string)
  : result num :=
  if decide (valid_index (param_index P) k) then Ok (param_value P k)
  else Err (KeyError_index (param_name P)).

Notation "P .[ k ]" := (Param_getitem P k) (at level 1, left associativity,
  format "P .[ k ]").

(** [Set.add]: a label that is already a member is skipped. *)
Definition Set_add (s : list string) (x : string) : list string :=
  if decide (x ∈ s) then s else s ++ [x].

(** [A | B] *)
Definition SetUnion (A B : list string) : list string :=
  A ++ filter (λ x, x ∉ A) B.

Infix ".|" := SetUnion (at level 50, left associativity).

(** [Set(initialize=init)]: the members, in the order they were added. *)
Definition Set_elems (init : list string) : list string :=
  foldl Set_add [] init.

(** A rule is a Python function of the model, or of the model and an index. *)
Inductive rule (num : Type) : Type :=
| Rule1 (name : string) (f : block num → result (expr num))
| Rule2 (name : string) (f : block num → string → result (expr num)).

Arguments Rule1 {num} name f.
Arguments Rule2 {num} name f.

Definition rule_name {num : Type} (r : rule num) : string :=
  match r with Rule1 n _ | Rule2 n _ => n end.

(** [r(model)] and [r(model, i)]: a call with the wrong number of arguments
    raises [TypeError]. *)
Definition call1 {num : Type} (r : rule num) (model : block num)
  : result (expr num) :=
  match r with
  | Rule1 _ f => f model
  | Rule2 n _ => Err (TypeError n 1)
  end.

Definition call2 {num : Type} (r : rule num) (model : block num) (i : string)
  : result (expr num) :=
  match r with
  | Rule2 _ f => f model i
  | Rule1 n _ => Err (TypeError n 2)
  end.

(** Pyomo 5.7's [apply_indexed_rule] for the index [i] of an indexed
    component: it calls [r(model, i)]; when that raises [TypeError] it
    calls [r(model)], and when that raises as well, the error of the first
    call is the one that is raised. *)
Definition apply_indexed_rule {num : Type} (r : rule num) (model : block num)
    (i : string) : result (expr num) :=
  match call2 r model i with
  | inl (TypeError callee given) =>
      match call1 r model with
      | inr e => Ok e
      | inl _ => Err (TypeError callee given)
      end
  | res => res
  end.

(** What the constructors [Set(...)], [Param(...)], [Var(...)] and
    [Constraint(...)] return: a component that is not constructed yet. *)
Inductive decl (num : Type) : Type :=
| Set_ (initialize : list string)
| Param (index : list (list string)) (default : num) (initialize : table num)
| Var (index : option (list string)) (within : domain)
| Constraint (index : option (list string)) (rule : rule num).

Arguments Set_ {num} initialize.
Arguments Param {num} index default initialize.
Arguments Var {num} index within.
Arguments Constraint {num} index rule.

(** The releases of Pyomo, by what they do with a rule that takes the model
    only and is given to an indexed constraint. *)
Inductive pyomo : Type :=
| Pyomo_5_7    (* the rule is called again, with the model only *)
| Pyomo_6_1.   (* 6.1.2 and later: IndexError *)

Arguments sum_over : simpl never.
Arguments py_sum : simpl never.
Arguments param_value : simpl never.
Arguments Param_getitem : simpl never.
Arguments SetUnion : simpl never.
Arguments Set_elems : simpl never.

(** ** The heap *)

Inductive pyobj (num : Type) : Type :=
| PyDictSets (d : gmap string (list string))
| PyDictParams (d : gmap string (table num))
| PyModel (b : block num).

Arguments PyDictSets {num} d.
Arguments PyDictParams {num} d.
Arguments PyModel {num} b.

Abbreviation loc := nat (only parsing).
Abbreviation heap num := (list (pyobj num)).

(** The monad of Python computations: a final heap, with a value or an
    exception. *)
Definition Py (num A : Type) : Type := heap num → result A * heap num.

#[export] Instance Py_ret {num : Type} : MRet (Py num) := λ A a h, (inr a, h).
#[export] Instance Py_bind {num : Type} : MBind (Py num) :=
  λ A B f m h,
    match m h with
    | (inr a, h') => f a h'
    | (inl e, h') => (inl e, h')
    end.

(** [ConcreteModel()] allocates an empty model. *)
Definition ConcreteModel {num : Type} : Py num loc :=
  λ h, (inr (length h), h ++ [PyModel []]).

(** [df_sets[k]] and [df_parameters[k]] *)
Definition getitem_sets {num : Type} (d : loc) (k : string)
  : Py num (list string) :=
  λ h, match h !! d with
       | Some (PyDictSets dct) =>
           match dct !! k with
           | Some v => (inr v, h)
           | None => (inl (KeyError k), h)
           end
       | _ => (inl (TypeError "__getitem__" 1), h)
       end.

Definition getitem_params {num : Type} (d : loc) (k : string)
  : Py num (table num) :=
  λ h, match h !! d with
       | Some (PyDictParams dct) =>
           match dct !! k with
           | Some v => (inr v, h)
           | None => (inl (KeyError k), h)
           end
       | _ => (inl (TypeError "__getitem__" 1), h)
       end.

(** [model.n] where [n] names a set *)
Definition getattr_set {num : Type} (m : loc) (n : string)
  : Py num (list string) :=
  λ h, match h !! m with
       | Some (PyModel b) => (get_set b n, h)
       | _ => (inl (AttributeError n), h)
       end.

(** [del_component]: the block without the component named [n]. *)
Definition del_component {num : Type} (n : string) (b : block num)
  : block num :=
  filter (λ kc, kc.1 ≠ n) b.

(** The model at location [m] of a heap. *)
Definition model_at {num : Type} (h : heap num) (m : nat) : block num :=
  match h !! m with
  | Some (PyModel b) => b
  | _ => []
  end.

Section model.

Context `{Number num}.
Variable py : pyomo.

(** Construction of the component named [n], which is attached to the
    block [model] already.  An indexed constraint whose rule takes an index
    calls it for every index, in order.  (A scalar constraint whose rule
    takes an index is not in the script; the call [r(model)] and its
    [TypeError] are what Pyomo 5.7 does.) *)
Definition construct (model : block num) (n : string) (d : decl num)
  : result (component num) :=
  match d with
  | Set_ init => Ok (CSet (Set_elems init))
  | Param index dflt init =>
      if decide (valid_table index init)
      then Ok (CParam {| param_name := n; param_index := index;
                         param_default := dflt; param_data := init |})
      else Err (KeyError_index n)
  | Var index within =>
      Ok (CVar {| var_index := index; var_within := within |})
  | Constraint None r =>
      e ← call1 r model;
      Ok (CConstraint {| con_index := None; con_rule := rule_name r;
                         con_data := [(None, e)] |})
  | Constraint (Some idx) r =>
      match py, r with
      | Pyomo_6_1, Rule1 _ _ => Err (IndexError n)
      | Pyomo_6_1, Rule2 _ _ =>
          es ← mapM (λ i, e ← call2 r model i; Ok (Some i, e)) idx;
          Ok (CConstraint {| con_index := Some idx; con_rule := rule_name r;
                             con_data := es |})
      | Pyomo_5_7, _ =>
          es ← mapM (λ i, e ← apply_indexed_rule r model i; Ok (Some i, e)) idx;
          Ok (CConstraint {| con_index := Some idx; con_rule := rule_name r;
                             con_data := es |})
      end
  end.

(** [model.n = d]: a component that has the name already is removed, [d] is
    attached as [n], and then it is constructed.  When the construction
    raises, [d] stays attached. *)
Definition setattr (m : loc) (n : string) (d : decl num) : Py num unit :=
  λ h, match h !! m with
       | Some (PyModel b) =>
           let b' := del_component n b in
           match construct (b' ++ [(n, CDeclared)]) n d with
           | inr c => (inr (), <[m := PyModel (b' ++ [(n, c)])]> h)
           | inl e => (inl e, <[m := PyModel (b' ++ [(n, CDeclared)])]> h)
           end
       | _ => (inl (AttributeError n), h)
       end.

(** ** The rules of [create_model]

    The rule functions are defined inside [create_model]; they take the
    model as their parameter and read its attributes when they are called. *)

(** [def DriveTimesEquationRule(model)] *)
Definition DriveTimesEquationRule : rule num :=
  Rule1 "DriveTimesEquationRule" (λ model,
    v_drive_times ← get_var model "v_drive_times";
    l ← get_set model "l";
    p_drive_times ← get_param model "p_drive_times";
    s ← py_sum (λ ll, py_sum (λ l', p_drive_times.[[l'; ll]]) l) l;
    Ok (v_drive_times == s)).

(** [def CompletionDemandRule(model,t)] *)
Definition CompletionDemandRule : rule num :=
  Rule2 "CompletionDemandRule" (λ model t,
    v_completion_demand ← get_var_member model "v_completion_demand" t;
    c ← get_set model "c";
    p_completion_demand ← get_param model "p_completion_demand";
    s ← py_sum (λ c', p_completion_demand.[[c'; t]]) c;
    Ok (v_completion_demand == s)).

(** [def FlowBackRatesRule(model)] *)
Definition FlowBackRatesRule : rule num :=
  Rule1 "FlowBackRatesRule" (λ model,
    v_flowback_rates ← get_var model "v_flowback_rates";
    c ← get_set model "c";
    t ← get_set model "t";
    p_flowback_rates ← get_param model "p_flowback_rates";
    s ← py_sum (λ t', py_sum (λ c', p_flowback_rates.[[c'; t']]) c) t;
    Ok (v_flowback_rates == s)).

(** [def ProductionRatesRule(model)] *)
Definition ProductionRatesRule : rule num :=
  Rule1 "ProductionRatesRule" (λ model,
    v_production_rates ← get_var model "v_production_rates";
    p ← get_set model "p";
    a ← get_set model "a";
    t ← get_set model "t";
    p_production_rates ← get_param model "p_production_rates";
    s ← py_sum (λ t', py_sum (λ a',
          py_sum (λ p', p_production_rates.[[p'; a'; t']]) p) a) t;
    Ok (v_production_rates == s)).

(** [def DisposalCapacityRule(model)] *)
Definition DisposalCapacityRule : rule num :=
  Rule1 "DisposalCapacityRule" (λ model,
    v_disposal_capacity ← get_var model "v_disposal_capacity";
    d ← get_set model "d";
    p_initial_disposal_capacity ← get_param model "p_initial_disposal_capacity";
    s ← py_sum (λ d', p_initial_disposal_capacity.[[d']]) d;
    Ok (v_disposal_capacity == s)).

(** [def TwoIndexColumnParameterRule(model,d)] *)
Definition TwoIndexColumnParameterRule : rule num :=
  Rule2 "TwoIndexColumnParameterRule" (λ model d,
    v_two_index_param ← get_var_member model "v_two_index_param" d;
    d_set ← get_set model "d";
    p_two_index_column ← get_param model "p_two_index_column";
    s ← py_sum (λ dd, p_two_index_column.[[d; dd]]) d_set;
    Ok (v_two_index_param == s)).

(** ** [create_model] *)

Definition create_model (df_sets df_parameters : loc) : Py num loc :=
  model ← ConcreteModel;
  (* SET DEFINITION *)
  i ← getitem_sets df_sets "ProductionPads";
  setattr model "p" (Set_ i);;
  i ← getitem_sets df_sets "CompletionsPads";
  setattr model "c" (Set_ i);;
  i ← getitem_sets df_sets "ProductionTanks";
  setattr model "a" (Set_ i);;
  i ← getitem_sets df_sets "SWDSites";
  setattr model "d" (Set_ i);;
  i ← getitem_sets df_sets "TimePeriods";
  setattr model "t" (Set_ i);;
  p ← getattr_set model "p";
  c ← getattr_set model "c";
  a ← getattr_set model "a";
  d ← getattr_set model "d";
  setattr model "l" (Set_ (p .| c .| a .| d));;
  (* PARAMETER DEFINITION *)
  l ← getattr_set model "l";
  l' ← getattr_set model "l";
  i ← getitem_params df_parameters "DriveTimes";
  setattr model "p_drive_times" (Param [l; l'] num_zero i);;
  c ← getattr_set model "c";
  t ← getattr_set model "t";
  i ← getitem_params df_parameters "CompletionsDemand";
  setattr model "p_completion_demand" (Param [c; t] num_zero i);;
  c ← getattr_set model "c";
  t ← getattr_set model "t";
  i ← getitem_params df_parameters "FlowbackRates";
  setattr model "p_flowback_rates" (Param [c; t] num_zero i);;
  p ← getattr_set model "p";
  a ← getattr_set model "a";
  t ← getattr_set model "t";
  i ← getitem_params df_parameters "ProductionRates";
  setattr model "p_production_rates" (Param [p; a; t] num_zero i);;
  d ← getattr_set model "d";
  i ← getitem_params df_parameters "InitialDisposalCapacity";
  setattr model "p_initial_disposal_capacity" (Param [d] num_zero i);;
  d ← getattr_set model "d";
  d' ← getattr_set model "d";
  i ← getitem_params df_parameters "TwoIndexColumnParam";
  setattr model "p_two_index_column" (Param [d; d'] num_zero i);;
  (* VARIABLES DEFINITION *)
  setattr model "v_drive_times" (Var None NonNegativeReals);;
  t ← getattr_set model "t";
  setattr model "v_completion_demand" (Var (Some t) NonNegativeReals);;
  setattr model "v_flowback_rates" (Var None NonNegativeReals);;
  setattr model "v_production_rates" (Var None NonNegativeReals);;
  setattr model "v_disposal_capacity" (Var None NonNegativeReals);;
  d ← getattr_set model "d";
  setattr model "v_two_index_param" (Var (Some d) NonNegativeReals);;
  (* TEST EQUATIONS *)
  setattr model "e_drive_times" (Constraint None DriveTimesEquationRule);;
  t ← getattr_set model "t";
  setattr model "e_completion_demand"
    (Constraint (Some t) DriveTimesEquationRule);;
  setattr model "e_flowback_rates" (Constraint None DriveTimesEquationRule);;
  setattr model "e_production_rates" (Constraint None DriveTimesEquationRule);;
  setattr model "e_disposal_capacity" (Constraint None DisposalCapacityRule);;
  d ← getattr_set model "d";
  setattr model "e_two_index_column_param"
    (Constraint (Some d) TwoIndexColumnParameterRule);;
  mret model.

(** ** The data loader and the script *)

(** The tabs the script asks [get_data] for. *)
Definition set_list : list string :=
  ["ProductionPads"; "CompletionsPads"; "SWDSites"; "ProductionTanks"].

Definition parameter_list : list string :=
  ["DriveTimes"; "CompletionsDemand"; "FlowbackRates"; "ProductionRates";
   "InitialDisposalCapacity"; "TwoIndexColumnParam"].

Section get_data.

(** A spreadsheet is a map from tab names to sheets.  What makes a tab
    well formed is left to the two parsers. *)
Context {sheet : Type}.
Variable parse_set : sheet → option (list string).
Variable parse_parameter : sheet → option (table num).

(** Modelled from the spec: reading one tab of [get_data]'s spreadsheet,
    which section 4.1 describes as "reading one spreadsheet tab per name"
    and which "fails with a DataFormatError if a named tab is absent or
    malformed". *)
Definition read_tab {A : Type} (parse : sheet → option A)
    (wb : gmap string sheet) (name : string) : result (string * A) :=
  match wb !! name with
  | None => Err (DataFormatError name)
  | Some s =>
      match parse s with
      | Some v => Ok (name, v)
      | None => Err (DataFormatError name)
      end
  end.

(** Modelled from the spec: [pareto.utilities.get_data.get_data] is
    imported by the script and is not among the sources.  Section 4.1:
    "given a file path, a list of set-tab names, and a list of
    parameter-tab names, return (a) a mapping set-name -> ordered list of
    labels, and (b) a mapping parameter-name -> sparse value table,
    reading one spreadsheet tab per name.  Fails with a DataFormatError
    if a named tab is absent or malformed."  Section 7 adds FileNotFound
    for a bad path.  The two mappings are new objects in the heap. *)
Definition get_data (fs : gmap string (gmap string sheet)) (fpath : string)
    (sets params : list string) : Py num (nat * nat) :=
  λ h, match fs !! fpath with
       | None => (inl (FileNotFound fpath), h)
       | Some wb =>
           match mapM (read_tab parse_set wb) sets with
           | inl e => (inl e, h)
           | inr df_sets =>
               match mapM (read_tab parse_parameter wb) params with
               | inl e => (inl e, h)
               | inr df_parameters =>
                   (inr (length h, S (length h)),
                    h ++ [PyDictSets (list_to_map df_sets);
                          PyDictParams (list_to_map df_parameters)])
               end
           end
       end.

(** The script run as a program: load the two mappings from the
    spreadsheet at [fpath] and build the model. *)
Definition main (fs : gmap string (gmap string sheet)) (fpath : string)
  : Py num nat :=
  dfs ← get_data fs fpath set_list parameter_list;
  create_model dfs.1 dfs.2.

(** The tab [name] is present and well formed. *)
Definition tab_ok {A : Type} (parse : sheet → option A)
    (wb : gmap string sheet) (name : string) : Prop :=
  ∃ s v, wb !! name = Some s ∧ parse s = Some v.

Definition bad_tab (wb : gmap string sheet) (sets params : list string)
    (n : string) : Prop :=
  (n ∈ sets ∧ ¬ tab_ok parse_set wb n) ∨
  (n ∈ params ∧ ¬ tab_ok parse_parameter wb n).

End get_data.

End model.

(** ** Constraints and assignments *)

(** The constraints of a model: component name, member index, expression. *)
Definition constraints {num : Type} (b : block num)
  : list (string * option string * expr num) :=
  flat_map (λ '(n, c),
    match c with
    | CConstraint C => map (λ '(i, e), (n, i, e)) (con_data C)
    | _ => []
    end) b.

(** The members of the constraint named [n]. *)
Definition members {num : Type} (b : block num) (n : string)
  : list (option string * expr num) :=
  match block_lookup n b with
  | Some (CConstraint C) => con_data C
  | _ => []
  end.

(** An assignment gives every variable (member) a value. *)
Definition assignment (num : Type) : Type := varref → num.

(** The value of the expression [lhs == rhs] under an assignment. *)
Definition eval `{Number num} (σ : assignment num) (e : expr num) : bool :=
  num_eqb (σ (lhs e)) (rhs e).

(** [σ] with the scalar variable [n] set to [z]. *)
Definition assign {num : Type} (σ : assignment num) (n : string) (z : num)
  : assignment num :=
  λ v, if String.eqb (vr_name v) n then z else σ v.

Definition satisfies `{Number num} (σ : assignment num) (b : block num)
  : Prop :=
  ∀ n i e, (n, i, e) ∈ constraints b → eval σ e = true.

(** ** The aggregation rule, in the words of the specification *)

(** All tuples of [I1 x ... x In]. *)
Fixpoint tuples (sets : list (list string)) : list (list string) :=
  match sets with
  | [] => [[]]
  | s :: rest => x ← s; k ← tuples rest; [x :: k]
  end.

(** The sum of a list of numbers. *)
Fixpoint total `{Number num} (zs : list num) : num :=
  match zs with
  | [] => num_zero
  | z :: zs' => num_add z (total zs')
  end.

(** A constraint of the specification: its name, its variable, the
    parameter it aggregates, and the index position the constraint is
    indexed by (none for a scalar constraint). *)
Record constraint_spec : Type := {
  cs_constraint : string;
  cs_variable : string;
  cs_parameter : string;
  cs_fixed : option nat
}.

Definition constraint_specs : list constraint_spec :=
  [ {| cs_constraint := "e_drive_times"; cs_variable := "v_drive_times";
       cs_parameter := "p_drive_times"; cs_fixed := None |};
    {| cs_constraint := "e_completion_demand";
       cs_variable := "v_completion_demand";
       cs_parameter := "p_completion_demand"; cs_fixed := Some 1 |};
    {| cs_constraint := "e_flowback_rates"; cs_variable := "v_flowback_rates";
       cs_parameter := "p_flowback_rates"; cs_fixed := None |};
    {| cs_constraint := "e_production_rates";
       cs_variable := "v_production_rates";
       cs_parameter := "p_production_rates"; cs_fixed := None |};
    {| cs_constraint := "e_disposal_capacity";
       cs_variable := "v_disposal_capacity";
       cs_parameter := "p_initial_disposal_capacity"; cs_fixed := None |};
    {| cs_constraint := "e_two_index_column_param";
       cs_variable := "v_two_index_param";
       cs_parameter := "p_two_index_column"; cs_fixed := Some 0 |} ].

(** The constraint of the specification named [n]. *)
Definition spec_of (n : string) : option constraint_spec :=
  find (λ cs, String.eqb (cs_constraint cs) n) constraint_specs.

(** The index positions summed over: every index set of the parameter,
    except that the fixed position holds the member's index only. *)
Definition spec_slots {num : Type} (P : ParamData num) (fixed : option nat)
    (i : option string) : list (list string) :=
  match fixed, i with
  | Some j, Some v => <[j := [v]]> (param_index P)
  | _, _ => param_index P
  end.

(** The sum of the parameter over all combinations of the non-fixed index
    positions. *)
Definition spec_aggregate `{Number num} (P : ParamData num)
    (fixed : option nat) (i : option string) : num :=
  total (map (param_value P) (tuples (spec_slots P fixed i))).

Definition spec_param `{Number num} (b : block num) (n : string)
  : ParamData num :=
  match get_param b n with
  | inr P => P
  | inl _ => {| param_name := n; param_index := [];
                param_default := num_zero; param_data := ∅ |}
  end.

(** The body the specification gives the member [i] of a constraint. *)
Definition spec_body `{Number num} (b : block num) (cs : constraint_spec)
    (i : option string) : expr num :=
  VarRef (cs_variable cs) i ==
  spec_aggregate (spec_param b (cs_parameter cs)) (cs_fixed cs) i.

(** The members the specification gives a constraint: one for a scalar
    constraint, one per label of the fixed index set otherwise. *)
Definition spec_members `{Number num} (b : block num) (cs : constraint_spec)
  : list (option string * expr num) :=
  match cs_fixed cs with
  | None => [(None, spec_body b cs None)]
  | Some j =>
      map (λ i, (Some i, spec_body b cs (Some i)))
          (default [] (param_index (spec_param b (cs_parameter cs)) !! j))
  end.


(** ** The aggregate as the rule functions compute it *)

(** The rule function the script defines for the constraint of each
    variable. *)
Definition own_rule `{Number num} (v : string) : option (rule num) :=
  if String.eqb v "v_drive_times" then Some DriveTimesEquationRule
  else if String.eqb v "v_completion_demand" then Some CompletionDemandRule
  else if String.eqb v "v_flowback_rates" then Some FlowBackRatesRule
  else if String.eqb v "v_production_rates" then Some ProductionRatesRule
  else if String.eqb v "v_disposal_capacity" then Some DisposalCapacityRule
  else if String.eqb v "v_two_index_param"
       then Some TwoIndexColumnParameterRule
  else None.

(** The assignment of each variable to the right-hand side its own rule
    function computes on the model. *)
Definition rule_aggregate `{Number num} (b : block num) : assignment num :=
  λ v, match own_rule (vr_name v) with
       | Some r =>
           match match vr_index v with
                 | None => call1 r b
                 | Some i => call2 r b i
                 end with
           | inr e => rhs e
           | inl _ => num_zero
           end
       | None => num_zero
       end.

(** ** The outcome of [create_model] *)

(** The names [create_model] looks up, in the order it looks them up. *)
Definition set_names : list string :=
  ["ProductionPads"; "CompletionsPads"; "ProductionTanks"; "SWDSites";
   "TimePeriods"].

Definition parameter_names : list string :=
  ["DriveTimes"; "CompletionsDemand"; "FlowbackRates"; "ProductionRates";
   "InitialDisposalCapacity"; "TwoIndexColumnParam"].

(** The five sets the script reads from [df_sets]. *)
Record set_inputs : Type := {
  ProductionPads : list string;
  CompletionsPads : list string;
  ProductionTanks : list string;
  SWDSites : list string;
  TimePeriods : list string
}.

Definition sets_present (dct : gmap string (list string)) (si : set_inputs)
  : Prop :=
  dct !! "ProductionPads" = Some (ProductionPads si) ∧
  dct !! "CompletionsPads" = Some (CompletionsPads si) ∧
  dct !! "ProductionTanks" = Some (ProductionTanks si) ∧
  dct !! "SWDSites" = Some (SWDSites si) ∧
  dct !! "TimePeriods" = Some (TimePeriods si).

(** The model's sets [p], [c], [a], [d], [t] and [l]. *)
Definition set_p (si : set_inputs) := Set_elems (ProductionPads si).
Definition set_c (si : set_inputs) := Set_elems (CompletionsPads si).
Definition set_a (si : set_inputs) := Set_elems (ProductionTanks si).
Definition set_d (si : set_inputs) := Set_elems (SWDSites si).
Definition set_t (si : set_inputs) := Set_elems (TimePeriods si).
Definition set_l (si : set_inputs) :=
  Set_elems (set_p si .| set_c si .| set_a si .| set_d si).

(** The parameter declarations: the name looked up in [df_parameters], the
    component's name and its index sets, in declaration order. *)
Definition param_specs (si : set_inputs)
  : list (string * string * list (list string)) :=
  [("DriveTimes", "p_drive_times", [set_l si; set_l si]);
   ("CompletionsDemand", "p_completion_demand", [set_c si; set_t si]);
   ("FlowbackRates", "p_flowback_rates", [set_c si; set_t si]);
   ("ProductionRates", "p_production_rates", [set_p si; set_a si; set_t si]);
   ("InitialDisposalCapacity", "p_initial_disposal_capacity", [set_d si]);
   ("TwoIndexColumnParam", "p_two_index_column", [set_d si; set_d si])].

(** The six tables the script reads from [df_parameters]. *)
Record param_inputs (num : Type) : Type := {
  DriveTimes : table num;
  CompletionsDemand : table num;
  FlowbackRates : table num;
  ProductionRates : table num;
  InitialDisposalCapacity : table num;
  TwoIndexColumnParam : table num
}.

Arguments DriveTimes {num} p.
Arguments CompletionsDemand {num} p.
Arguments FlowbackRates {num} p.
Arguments ProductionRates {num} p.
Arguments InitialDisposalCapacity {num} p.
Arguments TwoIndexColumnParam {num} p.

Definition params_present {num : Type} (dct : gmap string (table num))
    (pi : param_inputs num) : Prop :=
  dct !! "DriveTimes" = Some (DriveTimes pi) ∧
  dct !! "CompletionsDemand" = Some (CompletionsDemand pi) ∧
  dct !! "FlowbackRates" = Some (FlowbackRates pi) ∧
  dct !! "ProductionRates" = Some (ProductionRates pi) ∧
  dct !! "InitialDisposalCapacity" = Some (InitialDisposalCapacity pi) ∧
  dct !! "TwoIndexColumnParam" = Some (TwoIndexColumnParam pi).

(** Every key of every table lies in the table's index sets. *)
Definition params_valid {num : Type} (si : set_inputs) (pi : param_inputs num)
  : Prop :=
  valid_table [set_l si; set_l si] (DriveTimes pi) ∧
  valid_table [set_c si; set_t si] (CompletionsDemand pi) ∧
  valid_table [set_c si; set_t si] (FlowbackRates pi) ∧
  valid_table [set_p si; set_a si; set_t si] (ProductionRates pi) ∧
  valid_table [set_d si] (InitialDisposalCapacity pi) ∧
  valid_table [set_d si; set_d si] (TwoIndexColumnParam pi).

(** Some name that [create_model] looks up is absent. *)
Definition name_missing {num : Type} (dS : gmap string (list string))
    (dP : gmap string (table num)) : Prop :=
  (∃ k, k ∈ set_names ∧ dS !! k = None) ∨
  (∃ k, k ∈ parameter_names ∧ dP !! k = None).

Definition mkParam `{Number num} (n : string) (index : list (list string))
    (tbl : table num) : ParamData num :=
  {| param_name := n; param_index := index; param_default := num_zero;
     param_data := tbl |}.

Definition mkVar (index : option (list string)) : VarData :=
  {| var_index := index; var_within := NonNegativeReals |}.

(** The body [DriveTimesEquationRule] returns on the model built from [si]
    and [pi]. *)
Definition drive_times_body `{Number num} (si : set_inputs)
    (pi : param_inputs num) : expr num :=
  VarRef "v_drive_times" None ==
  sum_over (λ ll, sum_over (λ l',
    param_value (mkParam "p_drive_times" [set_l si; set_l si]
                   (DriveTimes pi)) [l'; ll])
    (set_l si)) (set_l si).

(** The body the model's disposal-capacity constraint has. *)
Definition disposal_capacity_body `{Number num} (si : set_inputs)
    (pi : param_inputs num) : expr num :=
  VarRef "v_disposal_capacity" None ==
  sum_over (λ d',
    param_value (mkParam "p_initial_disposal_capacity" [set_d si]
                   (InitialDisposalCapacity pi)) [d'])
    (set_d si).

(** The body the member [d'] of the two-index constraint has. *)
Definition two_index_body `{Number num} (si : set_inputs)
    (pi : param_inputs num) (d' : string) : expr num :=
  VarRef "v_two_index_param" (Some d') ==
  sum_over (λ dd,
    param_value (mkParam "p_two_index_column" [set_d si; set_d si]
                   (TwoIndexColumnParam pi)) [d'; dd])
    (set_d si).

(** The block [create_model] has built when it returns: every member of
    [e_completion_demand], one per label of [t], has the body of
    [DriveTimesEquationRule]. *)
Definition built_model `{Number num} (si : set_inputs) (pi : param_inputs num)
  : block num :=
  [("p", CSet (set_p si));
   ("c", CSet (set_c si));
   ("a", CSet (set_a si));
   ("d", CSet (set_d si));
   ("t", CSet (set_t si));
   ("l", CSet (set_l si));
   ("p_drive_times",
      CParam (mkParam "p_drive_times" [set_l si; set_l si] (DriveTimes pi)));
   ("p_completion_demand",
      CParam (mkParam "p_completion_demand" [set_c si; set_t si]
                (CompletionsDemand pi)));
   ("p_flowback_rates",
      CParam (mkParam "p_flowback_rates" [set_c si; set_t si]
                (FlowbackRates pi)));
   ("p_production_rates",
      CParam (mkParam "p_production_rates" [set_p si; set_a si; set_t si]
                (ProductionRates pi)));
   ("p_initial_disposal_capacity",
      CParam (mkParam "p_initial_disposal_capacity" [set_d si]
                (InitialDisposalCapacity pi)));
   ("p_two_index_column",
      CParam (mkParam "p_two_index_column" [set_d si; set_d si]
                (TwoIndexColumnParam pi)));
   ("v_drive_times", CVar (mkVar None));
   ("v_completion_demand", CVar (mkVar (Some (set_t si))));
   ("v_flowback_rates", CVar (mkVar None));
   ("v_production_rates", CVar (mkVar None));
   ("v_disposal_capacity", CVar (mkVar None));
   ("v_two_index_param", CVar (mkVar (Some (set_d si))));
   ("e_drive_times",
      CConstraint {| con_index := None; con_rule := "DriveTimesEquationRule";
                     con_data := [(None, drive_times_body si pi)] |});
   ("e_completion_demand",
      CConstraint {| con_index := Some (set_t si);
        con_rule := "DriveTimesEquationRule";
        con_data :=
          map (λ t', (Some t', drive_times_body si pi)) (set_t si) |});
   ("e_flowback_rates",
      CConstraint {| con_index := None; con_rule := "DriveTimesEquationRule";
                     con_data := [(None, drive_times_body si pi)] |});
   ("e_production_rates",
      CConstraint {| con_index := None; con_rule := "DriveTimesEquationRule";
                     con_data := [(None, drive_times_body si pi)] |});
   ("e_disposal_capacity",
      CConstraint {| con_index := None; con_rule := "DisposalCapacityRule";
        con_data :=
          [(None, disposal_capacity_body si pi)] |});
   ("e_two_index_column_param",
      CConstraint {| con_index := Some (set_d si);
        con_rule := "TwoIndexColumnParameterRule";
        con_data :=
          map (λ d', (Some d', two_index_body si pi d')) (set_d si) |})].

(** The names [create_model] attaches to the model, in the order of its
    statements. *)
Definition component_names : list string :=
  ["p"; "c"; "a"; "d"; "t"; "l";
   "p_drive_times"; "p_completion_demand"; "p_flowback_rates";
   "p_production_rates"; "p_initial_disposal_capacity"; "p_two_index_column";
   "v_drive_times"; "v_completion_demand"; "v_flowback_rates";
   "v_production_rates"; "v_disposal_capacity"; "v_two_index_param";
   "e_drive_times"; "e_completion_demand"; "e_flowback_rates";
   "e_production_rates"; "e_disposal_capacity"; "e_two_index_column_param"].

(** The parameter declaration [spec] finds its table in [dP], with every
    key inside the declared index sets. *)
Definition param_ok {num : Type} (dP : gmap string (table num))
    (spec : string * string * list (list string)) : Prop :=
  ∃ tbl, dP !! spec.1.1 = Some tbl ∧ valid_table spec.2 tbl.

(** What a result [r] of [create_model], run on a heap of [n] objects under
    the release [py], says about the dictionaries [dS] and [dP] it was
    called on, and about the model object [mdl] it leaves in the heap: which
    statement failed first, and which components are attached. *)
Definition explains `{Number num} (py : pyomo)
    (dS : gmap string (list string)) (dP : gmap string (table num))
    (n : nat) (r : result nat) (mdl : block num) : Prop :=
  match r with
  | inl (KeyError k) =>
      (∃ pre suf,
         set_names = pre ++ k :: suf ∧
         Forall (λ n, is_Some (dS !! n)) pre ∧ dS !! k = None ∧
         map fst mdl = take (length pre) component_names) ∨
      (∃ si pre comp index suf,
         sets_present dS si ∧
         param_specs si = pre ++ (k, comp, index) :: suf ∧
         Forall (param_ok dP) pre ∧ dP !! k = None ∧
         map fst mdl = take (6 + length pre) component_names)
  | inl (KeyError_index comp) =>
      ∃ si pre k index suf tbl,
        sets_present dS si ∧
        param_specs si = pre ++ (k, comp, index) :: suf ∧
        Forall (param_ok dP) pre ∧ dP !! k = Some tbl ∧
        ¬ valid_table index tbl ∧
        map fst mdl = take (6 + length pre + 1) component_names ∧
        block_lookup comp mdl = Some CDeclared
  | inl (IndexError comp) =>
      py = Pyomo_6_1 ∧ comp = "e_completion_demand" ∧
      ∃ si pi, sets_present dS si ∧ params_present dP pi ∧
               params_valid si pi ∧
               mdl = take 19 (built_model si pi) ++ [(comp, CDeclared)]
  | inl _ => False
  | inr m =>
      py = Pyomo_5_7 ∧ m = n ∧
      ∃ si pi, sets_present dS si ∧ params_present dP pi ∧
               params_valid si pi ∧ mdl = built_model si pi
  end.

(** ** Concrete inputs *)

(** The scenario of the specification: one label per set, and an initial
    disposal capacity of 50 at [D1]; the other tables are empty. *)
Definition scenario_sets : gmap string (list string) :=
  list_to_map
    [("ProductionPads", ["P1"]); ("CompletionsPads", ["C1"]);
     ("SWDSites", ["D1"]); ("ProductionTanks", ["A1"]);
     ("TimePeriods", ["T1"])].

Definition scenario_parameters : gmap string (table Z) :=
  list_to_map
    [("DriveTimes", ∅); ("CompletionsDemand", ∅); ("FlowbackRates", ∅);
     ("ProductionRates", ∅);
     ("InitialDisposalCapacity", {[ ["D1"] := 50%Z ]});
     ("TwoIndexColumnParam", ∅)].

Definition scenario_heap : heap Z :=
  [PyDictSets scenario_sets; PyDictParams scenario_parameters].

Definition scenario_set_inputs : set_inputs :=
  {| ProductionPads := ["P1"]; CompletionsPads := ["C1"];
     ProductionTanks := ["A1"]; SWDSites := ["D1"]; TimePeriods := ["T1"] |}.

Definition scenario_param_inputs : param_inputs Z :=
  {| DriveTimes := ∅; CompletionsDemand := ∅; FlowbackRates := ∅;
     ProductionRates := ∅; InitialDisposalCapacity := {[ ["D1"] := 50%Z ]};
     TwoIndexColumnParam := ∅ |}.


(** Inputs without time periods. *)
Definition static_sets : gmap string (list string) :=
  list_to_map
    [("ProductionPads", ["P1"]); ("CompletionsPads", ["C1"]);
     ("SWDSites", ["D1"; "D2"]); ("ProductionTanks", ["A1"]);
     ("TimePeriods", [])].

Definition static_parameters : gmap string (table Z) :=
  list_to_map
    [("DriveTimes", {[ ["P1"; "C1"] := 7%Z ]}); ("CompletionsDemand", ∅);
     ("FlowbackRates", ∅); ("ProductionRates", ∅);
     ("InitialDisposalCapacity", {[ ["D1"] := 50%Z ]});
     ("TwoIndexColumnParam", {[ ["D1"; "D2"] := 3%Z ]})].

Definition static_heap : heap Z :=
  [PyDictSets static_sets; PyDictParams static_parameters].

Definition static_model : block Z :=
  model_at (create_model Pyomo_5_7 0 1 static_heap).2 2.

(** Dictionaries that hold [TimePeriods] and nothing else. *)
Definition only_time_periods : heap Z :=
  [PyDictSets {[ "TimePeriods" := ["T1"] ]}; PyDictParams ∅].

(** All sets empty; [DriveTimes] has a key outside [l x l] and the other
    parameter names are absent. *)
Definition empty_sets : gmap string (list string) :=
  list_to_map
    [("ProductionPads", []); ("CompletionsPads", []); ("SWDSites", []);
     ("ProductionTanks", []); ("TimePeriods", [])].

Definition stray_parameters : gmap string (table Z) :=
  {[ "DriveTimes" := {[ ["X"; "Y"] := 1%Z ]} ]}.

Definition stray_drive_times : heap Z :=
  [PyDictSets empty_sets; PyDictParams stray_parameters].

(** A spreadsheet file without any tab; a sheet is a list of rows. *)
Definition empty_workbook : gmap string (gmap string (list (list string))) :=
  {[ "toy_case_study.xlsx" := ∅ ]}.

(** Inputs with two time periods and data for them. *)
Definition periods_sets : gmap string (list string) :=
  list_to_map
    [("ProductionPads", ["P1"; "P2"]); ("CompletionsPads", ["C1"; "C2"]);
     ("SWDSites", ["D1"]); ("ProductionTanks", ["A1"]);
     ("TimePeriods", ["T1"; "T2"])].

Definition periods_parameters : gmap string (table Z) :=
  list_to_map
    [("DriveTimes", {[ ["P1"; "C1"] := 7%Z ]});
     ("CompletionsDemand",
        {[ ["C1"; "T1"] := 5%Z; ["C2"; "T1"] := 6%Z; ["C2"; "T2"] := 9%Z ]});
     ("FlowbackRates", {[ ["C1"; "T2"] := 2%Z; ["C2"; "T1"] := 3%Z ]});
     ("ProductionRates",
        {[ ["P1"; "A1"; "T1"] := 4%Z; ["P2"; "A1"; "T2"] := 8%Z ]});
     ("InitialDisposalCapacity", {[ ["D1"] := 50%Z ]});
     ("TwoIndexColumnParam", ∅)].

Definition periods_heap : heap Z :=
  [PyDictSets periods_sets; PyDictParams periods_parameters].

Definition periods_set_inputs : set_inputs :=
  {| ProductionPads := ["P1"; "P2"]; CompletionsPads := ["C1"; "C2"];
     ProductionTanks := ["A1"]; SWDSites := ["D1"];
     TimePeriods := ["T1"; "T2"] |}.

Definition periods_param_inputs : param_inputs Z :=
  {| DriveTimes := {[ ["P1"; "C1"] := 7%Z ]};
     CompletionsDemand :=
       {[ ["C1"; "T1"] := 5%Z; ["C2"; "T1"] := 6%Z; ["C2"; "T2"] := 9%Z ]};
     FlowbackRates := {[ ["C1"; "T2"] := 2%Z; ["C2"; "T1"] := 3%Z ]};
     ProductionRates :=
       {[ ["P1"; "A1"; "T1"] := 4%Z; ["P2"; "A1"; "T2"] := 8%Z ]};
     InitialDisposalCapacity := {[ ["D1"] := 50%Z ]};
     TwoIndexColumnParam := ∅ |}.

(** The model [create_model] returns on them under Pyomo 5.7. *)
Definition periods_model : block Z :=
  model_at (create_model Pyomo_5_7 0 1 periods_heap).2 2.

(** Dictionaries with the two pad sets only. *)
Definition pads_only_sets : gmap string (list string) :=
  list_to_map [("ProductionPads", ["P1"]); ("CompletionsPads", ["C1"])].

Definition pads_only : heap Z := [PyDictSets pads_only_sets; PyDictParams ∅].

(** The sets of [static_sets], with [DriveTimes] as the only table. *)
Definition static_set_inputs : set_inputs :=
  {| ProductionPads := ["P1"]; CompletionsPads := ["C1"];
     ProductionTanks := ["A1"]; SWDSites := ["D1"; "D2"]; TimePeriods := [] |}.

Definition drive_times_only : gmap string (table Z) :=
  {[ "DriveTimes" := {[ ["P1"; "C1"] := 7%Z ]} ]}.

Definition no_demand : heap Z :=
  [PyDictSets static_sets; PyDictParams drive_times_only].

(** The sets of [static_sets]; [CompletionsDemand] has a key for a time
    period, and there is none. *)
Definition stray_demand_parameters : gmap string (table Z) :=
  list_to_map
    [("DriveTimes", {[ ["P1"; "C1"] := 7%Z ]});
     ("CompletionsDemand", {[ ["C1"; "T1"] := 5%Z ]})].

Definition stray_demand : heap Z :=
  [PyDictSets static_sets; PyDictParams stray_demand_parameters].





(** ** Running the primitives on a heap whose last object is the model *)

Lemma Py_bind_run {num A B : Type} (m : Py num A) (f : A → Py num B)
    (h : heap num) :
  (m ≫= f) h =
  match m h with
  | (inr a, h') => f a h'
  | (inl e, h') => (inl e, h')
  end.
Proof. reflexivity. Qed.

Lemma model_lookup {num : Type} (h : heap num) (o : pyobj num) :
  (h ++ [o]) !! length h = Some o.
Proof. by rewrite list_lookup_middle. Qed.

Lemma model_update {num : Type} (h : heap num) (o o' : pyobj num) :
  <[length h := o']> (h ++ [o]) = h ++ [o'].
Proof.
  rewrite insert_app_r_alt by lia.
  by rewrite Nat.sub_diag.
Qed.

Lemma ConcreteModel_run {num : Type} (h : heap num) :
  ConcreteModel h = (inr (length h), h ++ [PyModel []]).
Proof. reflexivity. Qed.

Lemma getitem_sets_run {num : Type} (h : heap num) (o : pyobj num) (d : nat)
    (dct : gmap string (list string)) (k : string) :
  h !! d = Some (PyDictSets dct) →
  getitem_sets d k (h ++ [o]) =
  (match dct !! k with Some v => inr v | None => inl (KeyError k) end, h ++ [o]).
Proof.
  intros Hd. unfold getitem_sets.
  rewrite (lookup_app_l_Some _ _ _ _ Hd).
  by destruct (dct !! k).
Qed.

Lemma getitem_params_run {num : Type} (h : heap num) (o : pyobj num) (d : nat)
    (dct : gmap string (table num)) (k : string) :
  h !! d = Some (PyDictParams dct) →
  getitem_params d k (h ++ [o]) =
  (match dct !! k with Some v => inr v | None => inl (KeyError k) end, h ++ [o]).
Proof.
  intros Hd. unfold getitem_params.
  rewrite (lookup_app_l_Some _ _ _ _ Hd).
  by destruct (dct !! k).
Qed.

Lemma getattr_set_run {num : Type} (h : heap num) (b : block num) (n : string) :
  getattr_set (length h) n (h ++ [PyModel b]) = (get_set b n, h ++ [PyModel b]).
Proof. unfold getattr_set. by rewrite model_lookup. Qed.

Lemma block_lookup_None {num : Type} (n : string) (b : block num) :
  block_lookup n b = None ↔ n ∉ map fst b.
Proof.
  induction b as [|[k c] b IH]; cbn.
  - split; [intros _ Hin; by apply elem_of_nil in Hin | done].
  - rewrite not_elem_of_cons. destruct (String.eqb_spec k n) as [->|Hne].
    + split; [done|]. by intros [? _].
    + rewrite IH. split; [by intros ?; split | by intros [_ ?]].
Qed.

Lemma block_lookup_is_Some {num : Type} (n : string) (b : block num) :
  is_Some (block_lookup n b) ↔ n ∈ map fst b.
Proof.
  destruct (block_lookup n b) as [c|] eqn:Hc.
  - split; [intros _|by eauto].
    destruct (decide (n ∈ map fst b)) as [|Hn]; [done|].
    apply block_lookup_None in Hn. congruence.
  - apply block_lookup_None in Hc. split; [by intros [? ?]|done].
Qed.

Lemma del_component_absent {num : Type} (n : string) (b : block num) :
  block_lookup n b = None → del_component n b = b.
Proof.
  intros Hn%block_lookup_None. unfold del_component.
  induction b as [|[k c] b IH]; [done|].
  cbn in Hn. apply not_elem_of_cons in Hn as [Hk Hb].
  rewrite filter_cons_True by (cbn; congruence).
  f_equal. by apply IH.
Qed.

Lemma setattr_run {num : Type} (py : pyomo) (h : heap num) (b : block num)
    (n : string) (d : decl num) :
  block_lookup n b = None →
  setattr py (length h) n d (h ++ [PyModel b]) =
  match construct py (b ++ [(n, CDeclared)]) n d with
  | inr c => (inr (), h ++ [PyModel (b ++ [(n, c)])])
  | inl e => (inl e, h ++ [PyModel (b ++ [(n, CDeclared)])])
  end.
Proof.
  intros Hn. unfold setattr. rewrite model_lookup. cbv zeta.
  rewrite (del_component_absent _ _ Hn).
  destruct (construct py (b ++ [(n, CDeclared)]) n d);
    by rewrite model_update.
Qed.

Lemma mapM_inr {A B : Type} (f : A → result B) (g : A → B) (xs : list A) :
  (∀ x, x ∈ xs → f x = inr (g x)) → mapM f xs = inr (map g xs).
Proof.
  induction xs as [|x xs IH]; intros Hf; [done|].
  cbn. rewrite Hf by left. cbn. rewrite IH; [done|].
  intros y Hy. apply Hf. by right.
Qed.

(** ** Constructing constraints *)

Lemma construct_scalar {num : Type} (py : pyomo) (b : block num) (n : string)
    (r : rule num) (e : expr num) :
  call1 r b = inr e →
  construct py b n (Constraint None r) =
  inr (CConstraint {| con_index := None; con_rule := rule_name r;
                      con_data := [(None, e)] |}).
Proof. intros Hr. cbn. by rewrite Hr. Qed.

(** Pyomo 5.7 gives every member of an indexed constraint the expression
    [r(model)] when [r] takes the model only. *)
Lemma apply_indexed_rule_Rule1 {num : Type} (name : string)
    (f : block num → result (expr num)) (b : block num) (i : string)
    (e : expr num) :
  f b = inr e → apply_indexed_rule (Rule1 name f) b i = inr e.
Proof. intros Hf. unfold apply_indexed_rule. cbn. by rewrite Hf. Qed.

Lemma apply_indexed_rule_Rule2 {num : Type} (name : string)
    (f : block num → string → result (expr num)) (b : block num) (i : string) :
  apply_indexed_rule (Rule2 name f) b i = f b i.
Proof.
  unfold apply_indexed_rule. cbn.
  by destruct (f b i) as [[]|].
Qed.

Lemma construct_indexed_Rule1_5_7 {num : Type} (b : block num) (n : string)
    (idx : list string) (name : string) (f : block num → result (expr num))
    (e : expr num) :
  f b = inr e →
  construct Pyomo_5_7 b n (Constraint (Some idx) (Rule1 name f)) =
  inr (CConstraint {| con_index := Some idx; con_rule := name;
                      con_data := map (λ i, (Some i, e)) idx |}).
Proof.
  intros Hf. cbn -[apply_indexed_rule].
  rewrite (mapM_inr _ (λ i, (Some i, e))); [done|].
  intros i _. by rewrite (apply_indexed_rule_Rule1 _ _ _ _ e).
Qed.

Lemma construct_indexed_Rule1_6_1 {num : Type} (b : block num) (n : string)
    (idx : list string) (name : string) (f : block num → result (expr num)) :
  construct Pyomo_6_1 b n (Constraint (Some idx) (Rule1 name f)) =
  inl (IndexError n).
Proof. reflexivity. Qed.

Lemma construct_indexed_Rule2 {num : Type} (py : pyomo) (b : block num)
    (n : string) (idx : list string) (name : string)
    (f : block num → string → result (expr num)) (g : string → expr num) :
  (∀ i, i ∈ idx → f b i = inr (g i)) →
  construct py b n (Constraint (Some idx) (Rule2 name f)) =
  inr (CConstraint {| con_index := Some idx; con_rule := name;
                      con_data := map (λ i, (Some i, g i)) idx |}).
Proof.
  intros Hf. destruct py; cbn -[apply_indexed_rule].
  - rewrite (mapM_inr _ (λ i, (Some i, g i))); [done|].
    intros i Hi. by rewrite apply_indexed_rule_Rule2, Hf.
  - rewrite (mapM_inr _ (λ i, (Some i, g i))); [done|].
    intros i Hi. by rewrite Hf.
Qed.

(** ** Sums whose elements do not raise *)

Lemma py_sum_ok `{Number num} {A : Type} (f : A → result num) (g : A → num)
    (xs : list A) :
  (∀ x, x ∈ xs → f x = inr (g x)) → py_sum f xs = inr (sum_over g xs).
Proof.
  unfold py_sum, sum_over. generalize num_zero.
  induction xs as [|x xs IH]; intros a Hf; [done|].
  cbn. rewrite Hf by left. cbn. apply IH.
  intros y Hy. apply Hf. by right.
Qed.


(** The first element that raises ends the sum with its exception. *)
Lemma py_sum_raises `{Number num} {A : Type} (f : A → result num)
    (g : A → num) (xs ys : list A) (x : A) (e : exn) :
  (∀ y, y ∈ xs → f y = inr (g y)) → f x = inl e →
  py_sum f (xs ++ x :: ys) = inl e.
Proof.
  unfold py_sum. generalize num_zero.
  induction xs as [|y xs IH]; intros a Hf Hx.
  - cbn. rewrite Hx. cbn. clear. induction ys as [|y ys IH]; [done|]. apply IH.
  - cbn. rewrite Hf by left. cbn. apply IH; [|done].
    intros z Hz. apply Hf. by right.
Qed.

Lemma Param_getitem_valid {num : Type} (P : ParamData num) (k : list string) :
  valid_index (param_index P) k → P.[k] = inr (param_value P k).
Proof. intros Hk. unfold Param_getitem. by rewrite decide_True. Qed.

Lemma Param_getitem_invalid {num : Type} (P : ParamData num)
    (k : list string) :
  ¬ valid_index (param_index P) k → P.[k] = inl (KeyError_index (param_name P)).
Proof. intros Hk. unfold Param_getitem. by rewrite decide_False. Qed.

Lemma valid_index_1 (s : list string) (x : string) :
  x ∈ s → valid_index [s] [x].
Proof. intros Hx. by repeat constructor. Qed.

Lemma valid_index_2 (s1 s2 : list string) (x1 x2 : string) :
  x1 ∈ s1 → x2 ∈ s2 → valid_index [s1; s2] [x1; x2].
Proof. intros H1 H2. by repeat constructor. Qed.

Lemma valid_index_3 (s1 s2 s3 : list string) (x1 x2 x3 : string) :
  x1 ∈ s1 → x2 ∈ s2 → x3 ∈ s3 → valid_index [s1; s2; s3] [x1; x2; x3].
Proof. intros H1 H2 H3. by repeat constructor. Qed.

(** ** The rule functions on a model that has what they read *)

Lemma DriveTimesEquationRule_run `{Number num} (b : block num) (v : varref)
    (l : list string) (P : ParamData num) :
  get_var b "v_drive_times" = inr v →
  get_set b "l" = inr l →
  get_param b "p_drive_times" = inr P →
  param_index P = [l; l] →
  call1 DriveTimesEquationRule b =
  inr (v == sum_over (λ ll, sum_over (λ l', param_value P [l'; ll]) l) l).
Proof.
  intros Hv Hl HP Hidx. cbn. rewrite Hv. cbn. rewrite Hl. cbn. rewrite HP. cbn.
  rewrite (py_sum_ok _ (λ ll, sum_over (λ l', param_value P [l'; ll]) l));
    [done|].
  intros ll Hll. apply py_sum_ok. intros l' Hl'.
  apply Param_getitem_valid. rewrite Hidx. by apply valid_index_2.
Qed.

Lemma DisposalCapacityRule_run `{Number num} (b : block num) (v : varref)
    (d : list string) (P : ParamData num) :
  get_var b "v_disposal_capacity" = inr v →
  get_set b "d" = inr d →
  get_param b "p_initial_disposal_capacity" = inr P →
  param_index P = [d] →
  call1 DisposalCapacityRule b =
  inr (v == sum_over (λ d', param_value P [d']) d).
Proof.
  intros Hv Hd HP Hidx. cbn. rewrite Hv. cbn. rewrite Hd. cbn. rewrite HP. cbn.
  rewrite (py_sum_ok _ (λ d', param_value P [d'])); [done|].
  intros d' Hd'. apply Param_getitem_valid. rewrite Hidx.
  by apply valid_index_1.
Qed.

Lemma TwoIndexColumnParameterRule_run `{Number num} (b : block num)
    (d' : string) (v : varref) (d : list string) (P : ParamData num) :
  get_var_member b "v_two_index_param" d' = inr v →
  get_set b "d" = inr d →
  get_param b "p_two_index_column" = inr P →
  param_index P = [d; d] → d' ∈ d →
  call2 TwoIndexColumnParameterRule b d' =
  inr (v == sum_over (λ dd, param_value P [d'; dd]) d).
Proof.
  intros Hv Hd HP Hidx Hin. cbn. rewrite Hv. cbn. rewrite Hd. cbn.
  rewrite HP. cbn.
  rewrite (py_sum_ok _ (λ dd, param_value P [d'; dd])); [done|].
  intros dd Hdd. apply Param_getitem_valid. rewrite Hidx.
  by apply valid_index_2.
Qed.

Lemma CompletionDemandRule_run `{Number num} (b : block num)
    (t' : string) (v : varref) (c t : list string) (P : ParamData num) :
  get_var_member b "v_completion_demand" t' = inr v →
  get_set b "c" = inr c →
  get_param b "p_completion_demand" = inr P →
  param_index P = [c; t] → t' ∈ t →
  call2 CompletionDemandRule b t' =
  inr (v == sum_over (λ c', param_value P [c'; t']) c).
Proof.
  intros Hv Hc HP Hidx Hin. cbn. rewrite Hv. cbn. rewrite Hc. cbn.
  rewrite HP. cbn.
  rewrite (py_sum_ok _ (λ c', param_value P [c'; t'])); [done|].
  intros c' Hc'. apply Param_getitem_valid. rewrite Hidx.
  by apply valid_index_2.
Qed.

Lemma FlowBackRatesRule_run `{Number num} (b : block num) (v : varref)
    (c t : list string) (P : ParamData num) :
  get_var b "v_flowback_rates" = inr v →
  get_set b "c" = inr c →
  get_set b "t" = inr t →
  get_param b "p_flowback_rates" = inr P →
  param_index P = [c; t] →
  call1 FlowBackRatesRule b =
  inr (v == sum_over (λ t', sum_over (λ c', param_value P [c'; t']) c) t).
Proof.
  intros Hv Hc Ht HP Hidx. cbn. rewrite Hv. cbn. rewrite Hc. cbn.
  rewrite Ht. cbn. rewrite HP. cbn.
  rewrite (py_sum_ok _ (λ t', sum_over (λ c', param_value P [c'; t']) c));
    [done|].
  intros t' Ht'. apply py_sum_ok. intros c' Hc'.
  apply Param_getitem_valid. rewrite Hidx. by apply valid_index_2.
Qed.

Lemma ProductionRatesRule_run `{Number num} (b : block num) (v : varref)
    (p a t : list string) (P : ParamData num) :
  get_var b "v_production_rates" = inr v →
  get_set b "p" = inr p →
  get_set b "a" = inr a →
  get_set b "t" = inr t →
  get_param b "p_production_rates" = inr P →
  param_index P = [p; a; t] →
  call1 ProductionRatesRule b =
  inr (v == sum_over (λ t', sum_over (λ a',
         sum_over (λ p', param_value P [p'; a'; t']) p) a) t).
Proof.
  intros Hv Hp Ha Ht HP Hidx. cbn. rewrite Hv. cbn. rewrite Hp. cbn.
  rewrite Ha. cbn. rewrite Ht. cbn. rewrite HP. cbn.
  rewrite (py_sum_ok _ (λ t', sum_over (λ a',
             sum_over (λ p', param_value P [p'; a'; t']) p) a)); [done|].
  intros t' Ht'. apply py_sum_ok. intros a' Ha'. apply py_sum_ok.
  intros p' Hp'. apply Param_getitem_valid. rewrite Hidx.
  by apply valid_index_3.
Qed.

(** ** Symbolic execution of [create_model] *)

(** Symbolic execution of one statement in a hypothesis [H] of the form
    [(stmt ≫= rest) heap = (r, h')]. *)
Ltac py_finish H :=
  injection H as <- <-; eexists; split; [reflexivity|]; cbn [explains].

Tactic Notation "py_alloc" hyp(H) :=
  rewrite Py_bind_run, ConcreteModel_run in H; cbv beta iota in H.

Tactic Notation "py_getitem" hyp(H) constr(Hd) "as" ident(x) ident(E) :=
  rewrite Py_bind_run in H;
  first [ rewrite (getitem_sets_run _ _ _ _ _ Hd) in H
        | rewrite (getitem_params_run _ _ _ _ _ Hd) in H ];
  match type of H with
  | context [ match ?dct !! ?k with _ => _ end ] =>
      destruct (dct !! k) as [x|] eqn:E; cbv beta iota in H;
      [| py_finish H ]
  end.

Tactic Notation "py_getattr" hyp(H) :=
  rewrite Py_bind_run, getattr_set_run in H; cbn in H.

Tactic Notation "py_setattr" hyp(H) :=
  rewrite Py_bind_run, setattr_run in H by reflexivity;
  cbn [construct app] in H; cbv beta iota in H.

Tactic Notation "py_setattr_param" hyp(H) "as" ident(V) :=
  rewrite Py_bind_run, setattr_run in H by reflexivity;
  cbn [construct app] in H;
  match type of H with
  | context [ decide (valid_table ?i ?t) ] =>
      destruct (decide (valid_table i t)) as [V|V]; cbv beta iota in H;
      [| py_finish H ]
  end.

(** A scalar constraint whose rule returns [e] on the model. *)
Tactic Notation "py_setattr_rule" hyp(H) constr(e) "by" tactic3(tac) :=
  rewrite Py_bind_run, setattr_run in H by reflexivity;
  rewrite (construct_scalar _ _ _ _ e) in H by tac;
  cbn [app rule_name DriveTimesEquationRule DisposalCapacityRule] in H;
  cbv beta iota in H.

Ltac absent_set n :=
  left; exists (take n set_names), (drop (S n) set_names);
  split_and!; [reflexivity | repeat constructor; eauto | done | reflexivity].

Ltac absent_param si n :=
  right; exists si, (take n (param_specs si));
  eexists _, _, (drop (S n) (param_specs si));
  split_and!;
    [done | reflexivity | repeat constructor; unfold param_ok; eauto
    | done | reflexivity].

Ltac stray_key si n tbl :=
  exists si, (take n (param_specs si));
  eexists _, _, (drop (S n) (param_specs si)), tbl;
  split_and!;
    [done | reflexivity | repeat constructor; unfold param_ok; eauto
    | done | done | reflexivity | reflexivity].

Lemma create_model_outcome `{Number num} (py : pyomo) (h : heap num)
    (ds dp : nat) (dS : gmap string (list string))
    (dP : gmap string (table num)) (r : result nat) (h' : heap num) :
  h !! ds = Some (PyDictSets dS) →
  h !! dp = Some (PyDictParams dP) →
  create_model py ds dp h = (r, h') →
  ∃ mdl, h' = h ++ [PyModel mdl] ∧ explains py dS dP (length h) r mdl.
Proof.
  intros Hds Hdp H0. unfold create_model in H0.
  py_alloc H0.
  (* sets *)
  py_getitem H0 Hds as p0 Ep; [| absent_set 0 ]. py_setattr H0.
  py_getitem H0 Hds as c0 Ec; [| absent_set 1 ]. py_setattr H0.
  py_getitem H0 Hds as a0 Ea; [| absent_set 2 ]. py_setattr H0.
  py_getitem H0 Hds as d0 Ed; [| absent_set 3 ]. py_setattr H0.
  py_getitem H0 Hds as t0 Et; [| absent_set 4 ]. py_setattr H0.
  do 4 py_getattr H0. py_setattr H0.
  pose (si := {| ProductionPads := p0; CompletionsPads := c0;
                 ProductionTanks := a0; SWDSites := d0; TimePeriods := t0 |}).
  assert (Hsi : sets_present dS si) by done.
  (* parameters *)
  do 2 py_getattr H0.
  py_getitem H0 Hdp as dt Edt; [| absent_param si 0 ].
  py_setattr_param H0 as Vdt; [| stray_key si 0 dt ].
  do 2 py_getattr H0.
  py_getitem H0 Hdp as cd Ecd; [| absent_param si 1 ].
  py_setattr_param H0 as Vcd; [| stray_key si 1 cd ].
  do 2 py_getattr H0.
  py_getitem H0 Hdp as fr Efr; [| absent_param si 2 ].
  py_setattr_param H0 as Vfr; [| stray_key si 2 fr ].
  do 3 py_getattr H0.
  py_getitem H0 Hdp as pr Epr; [| absent_param si 3 ].
  py_setattr_param H0 as Vpr; [| stray_key si 3 pr ].
  py_getattr H0.
  py_getitem H0 Hdp as idc Eidc; [| absent_param si 4 ].
  py_setattr_param H0 as Vidc; [| stray_key si 4 idc ].
  do 2 py_getattr H0.
  py_getitem H0 Hdp as tic Etic; [| absent_param si 5 ].
  py_setattr_param H0 as Vtic; [| stray_key si 5 tic ].
  pose (pi := {| DriveTimes := dt; CompletionsDemand := cd;
                 FlowbackRates := fr; ProductionRates := pr;
                 InitialDisposalCapacity := idc;
                 TwoIndexColumnParam := tic |}).
  assert (Hpi : params_present dP pi) by done.
  assert (Hv : params_valid si pi) by done.
  (* variables *)
  py_setattr H0. py_getattr H0. do 4 py_setattr H0. py_getattr H0.
  py_setattr H0.
  (* equations *)
  py_setattr_rule H0 (drive_times_body si pi)
    by (apply DriveTimesEquationRule_run; reflexivity).
  py_getattr H0.
  rewrite Py_bind_run, setattr_run in H0 by reflexivity.
  destruct py.
  2:{ unfold DriveTimesEquationRule at 1 in H0.
      rewrite construct_indexed_Rule1_6_1 in H0. cbv beta iota in H0.
      py_finish H0. split_and!; [done..|]. by exists si, pi. }
  unfold DriveTimesEquationRule at 1 in H0.
  rewrite (construct_indexed_Rule1_5_7 _ _ _ _ _ (drive_times_body si pi))
    in H0 by (apply (DriveTimesEquationRule_run _ _ (set_l si));
              reflexivity).
  cbn [app] in H0. cbv beta iota in H0.
  py_setattr_rule H0 (drive_times_body si pi)
    by (apply DriveTimesEquationRule_run; reflexivity).
  py_setattr_rule H0 (drive_times_body si pi)
    by (apply DriveTimesEquationRule_run; reflexivity).
  py_setattr_rule H0 (disposal_capacity_body si pi)
    by (apply DisposalCapacityRule_run; reflexivity).
  py_getattr H0.
  rewrite Py_bind_run, setattr_run in H0 by reflexivity.
  unfold TwoIndexColumnParameterRule at 1 in H0.
  rewrite (construct_indexed_Rule2 _ _ _ _ _ _ (two_index_body si pi)) in H0.
  2:{ intros d' Hd'.
      apply (TwoIndexColumnParameterRule_run _ d' _ (set_d si));
        try reflexivity; [|done].
      unfold get_var_member. cbn. by rewrite decide_True. }
  cbn [app] in H0. cbv beta iota in H0.
  py_finish H0. split_and!; [done..|]. by exists si, pi.
Qed.

Lemma create_model_total `{Number num} (py : pyomo) (ds dp : nat)
    (h : heap num) :
  ∃ r h', create_model py ds dp h = (r, h').
Proof. destruct (create_model py ds dp h) as [r h']. by exists r, h'. Qed.

(** A model is returned under Pyomo 5.7 only, and it is [built_model]. *)
Lemma create_model_returns `{Number num} (py : pyomo) (h : heap num)
    (ds dp : nat) (dS : gmap string (list string))
    (dP : gmap string (table num)) (m : nat) (h' : heap num) :
  h !! ds = Some (PyDictSets dS) →
  h !! dp = Some (PyDictParams dP) →
  create_model py ds dp h = (inr m, h') →
  py = Pyomo_5_7 ∧
  ∃ si pi, sets_present dS si ∧ params_present dP pi ∧ params_valid si pi ∧
           m = length h ∧
           h' = h ++ [PyModel (built_model si pi)] ∧
           h' !! m = Some (PyModel (built_model si pi)).
Proof.
  intros Hds Hdp Hrun.
  destruct (create_model_outcome _ _ _ _ _ _ _ _ Hds Hdp Hrun)
    as (mdl & -> & -> & -> & si & pi & Hsi & Hpi & Hv & ->).
  split; [done|]. exists si, pi. split_and!; try done. apply model_lookup.
Qed.

Lemma sets_present_inj (dS : gmap string (list string)) (si si' : set_inputs) :
  sets_present dS si → sets_present dS si' → si = si'.
Proof.
  intros (?&?&?&?&?) (?&?&?&?&?). destruct si, si'; cbn in *. congruence.
Qed.

Lemma params_present_inj {num : Type} (dP : gmap string (table num))
    (pi pi' : param_inputs num) :
  params_present dP pi → params_present dP pi' → pi = pi'.
Proof.
  intros (?&?&?&?&?&?) (?&?&?&?&?&?). destruct pi, pi'; cbn in *. congruence.
Qed.

Lemma sets_present_all (dS : gmap string (list string)) (si : set_inputs) :
  sets_present dS si → Forall (λ n, is_Some (dS !! n)) set_names.
Proof.
  intros (?&?&?&?&?). unfold set_names. repeat constructor; eauto.
Qed.

Lemma params_present_all {num : Type} (dP : gmap string (table num))
    (pi : param_inputs num) :
  params_present dP pi → Forall (λ n, is_Some (dP !! n)) parameter_names.
Proof.
  intros (?&?&?&?&?&?). unfold parameter_names. repeat constructor; eauto.
Qed.

Lemma params_ok_all {num : Type} (dP : gmap string (table num))
    (si : set_inputs) (pi : param_inputs num) :
  params_present dP pi → params_valid si pi →
  Forall (param_ok dP) (param_specs si).
Proof.
  intros (?&?&?&?&?&?) (?&?&?&?&?&?). unfold param_specs, param_ok.
  repeat constructor; eauto.
Qed.

Lemma param_specs_names (si : set_inputs) :
  (param_specs si).*1.*1 = parameter_names.
Proof. reflexivity. Qed.

Lemma param_specs_name (si : set_inputs) (k comp : string)
    (index : list (list string)) :
  (k, comp, index) ∈ param_specs si → k ∈ parameter_names.
Proof.
  intros Hk. rewrite <- (param_specs_names si).
  apply (list_elem_of_fmap_2 fst) in Hk. by apply (list_elem_of_fmap_2 fst) in Hk.
Qed.

(** The first element of a list that fails a test is determined by the
    list. *)
Lemma first_failure_unique {A : Type} (P : A → Prop)
    (pre pre' suf suf' : list A) (x x' : A) :
  pre ++ x :: suf = pre' ++ x' :: suf' →
  Forall P pre → ¬ P x → Forall P pre' → ¬ P x' →
  pre = pre' ∧ x = x' ∧ suf = suf'.
Proof.
  revert pre'.
  induction pre as [|y pre IH]; intros [|y' pre'] Heq Hpre Hx Hpre' Hx';
    cbn in Heq; injection Heq as Hhead Htail.
  - by subst.
  - subst. apply Forall_cons in Hpre' as [? _]. done.
  - subst. apply Forall_cons in Hpre as [? _]. done.
  - subst y'. apply Forall_cons in Hpre as [_ Hpre].
    apply Forall_cons in Hpre' as [_ Hpre'].
    destruct (IH pre' Htail Hpre Hx Hpre' Hx') as (-> & -> & ->). done.
Qed.

(** With every name present and every key inside its index sets, Pyomo 5.7
    returns [built_model]; later releases raise [IndexError] with
    [e_completion_demand] attached and the four constraints after it
    missing. *)
Lemma create_model_runs `{Number num} (py : pyomo) (h : heap num)
    (ds dp : nat) (dS : gmap string (list string))
    (dP : gmap string (table num)) (si : set_inputs) (pi : param_inputs num) :
  h !! ds = Some (PyDictSets dS) →
  h !! dp = Some (PyDictParams dP) →
  sets_present dS si → params_present dP pi → params_valid si pi →
  create_model py ds dp h =
  match py with
  | Pyomo_5_7 => (inr (length h), h ++ [PyModel (built_model si pi)])
  | Pyomo_6_1 =>
      (inl (IndexError "e_completion_demand"),
       h ++ [PyModel (take 19 (built_model si pi) ++
                      [("e_completion_demand", CDeclared)])])
  end.
Proof.
  intros Hds Hdp Hsi Hpi Hv.
  destruct (create_model_total py ds dp h) as (r & h' & Hrun).
  destruct (create_model_outcome _ _ _ _ _ _ _ _ Hds Hdp Hrun)
    as (mdl & -> & Hex).
  rewrite Hrun.
  destruct r as [e|m]; cbn [explains] in Hex.
  2:{ destruct Hex as (-> & -> & si' & pi' & Hsi' & Hpi' & _ & ->).
      by rewrite (sets_present_inj _ _ _ Hsi Hsi'),
                 (params_present_inj _ _ _ Hpi Hpi'). }
  destruct e as [k|comp|comp|callee given| | |]; try done.
  - exfalso. destruct Hex as [(pre & suf & Hk & _ & Hnone & _)
                             |(si' & pre & comp & index & suf & Hsi' & Hk & _ &
                               Hnone & _)].
    + apply sets_present_all in Hsi. rewrite Hk in Hsi.
      apply Forall_app in Hsi as [_ [Hsome _]%Forall_cons].
      rewrite Hnone in Hsome. by destruct Hsome.
    + assert (k ∈ parameter_names) as Hin.
      { apply (param_specs_name si' k comp index). rewrite Hk.
        apply elem_of_app. right. left. }
      apply params_present_all in Hpi. rewrite Forall_forall in Hpi.
      apply Hpi in Hin. rewrite Hnone in Hin. by destruct Hin.
  - exfalso.
    destruct Hex as (si' & pre & k & index & suf & tbl & Hsi' & Hk & _ & Htbl &
                     Hbad & _).
    rewrite <- (sets_present_inj _ _ _ Hsi Hsi') in Hk.
    pose proof (params_ok_all _ _ _ Hpi Hv) as Hok. rewrite Hk in Hok.
    apply Forall_app in Hok as [_ [(tbl' & Htbl' & Hv') _]%Forall_cons].
    cbn in Htbl', Hv'. congruence.
  - destruct Hex as (-> & -> & si' & pi' & Hsi' & Hpi' & _ & ->).
    by rewrite (sets_present_inj _ _ _ Hsi Hsi'),
               (params_present_inj _ _ _ Hpi Hpi').
Qed.

(** ** Pyomo sets *)

Lemma Set_add_elem_of (s : list string) (x y : string) :
  y ∈ Set_add s x ↔ y ∈ s ∨ y = x.
Proof.
  unfold Set_add. case_decide as Hx.
  - split; [by left|]. intros [?| ->]; done.
  - rewrite elem_of_app, list_elem_of_singleton. done.
Qed.

Lemma Set_add_NoDup (s : list string) (x : string) :
  NoDup s → NoDup (Set_add s x).
Proof.
  intros Hs. unfold Set_add. case_decide as Hx; [done|].
  apply NoDup_app. split_and!; [done| |apply NoDup_singleton].
  intros y Hy ->%list_elem_of_singleton. done.
Qed.

Lemma foldl_Set_add_elem_of (init acc : list string) (y : string) :
  y ∈ foldl Set_add acc init ↔ y ∈ acc ∨ y ∈ init.
Proof.
  revert acc. induction init as [|x init IH]; intros acc; cbn.
  - rewrite elem_of_nil. tauto.
  - rewrite IH, Set_add_elem_of, elem_of_cons. tauto.
Qed.

Lemma foldl_Set_add_NoDup (init acc : list string) :
  NoDup acc → NoDup (foldl Set_add acc init).
Proof.
  revert acc. induction init as [|x init IH]; intros acc Hacc; cbn; [done|].
  by apply IH, Set_add_NoDup.
Qed.

Lemma Set_elems_elem_of (init : list string) (y : string) :
  y ∈ Set_elems init ↔ y ∈ init.
Proof.
  unfold Set_elems. rewrite foldl_Set_add_elem_of, elem_of_nil. tauto.
Qed.

Lemma Set_elems_NoDup (init : list string) : NoDup (Set_elems init).
Proof. apply foldl_Set_add_NoDup, NoDup_nil_2. Qed.


Lemma SetUnion_elem_of (A B : list string) (y : string) :
  y ∈ A .| B ↔ y ∈ A ∨ y ∈ B.
Proof.
  unfold SetUnion. rewrite elem_of_app, list_elem_of_filter.
  destruct (decide (y ∈ A)); tauto.
Qed.

Lemma foldl_Set_add_fresh (init acc : list string) :
  NoDup (acc ++ init) → foldl Set_add acc init = acc ++ init.
Proof.
  revert acc. induction init as [|x init IH]; intros acc Hnd; cbn.
  - by rewrite app_nil_r.
  - assert (x ∉ acc) as Hx.
    { apply NoDup_app in Hnd as (_ & Hdisj & _). intros Hin.
      apply (Hdisj x Hin). left. }
    unfold Set_add at 2. rewrite decide_False by done.
    rewrite IH; rewrite <- app_assoc; done.
Qed.

Lemma Set_elems_duplicate_free (init : list string) :
  NoDup init → Set_elems init = init.
Proof. intros Hnd. unfold Set_elems. by rewrite foldl_Set_add_fresh. Qed.

Lemma SetUnion_disjoint (A B : list string) :
  (∀ x, x ∈ B → x ∉ A) → A .| B = A ++ B.
Proof.
  intros Hdisj. unfold SetUnion. f_equal.
  induction B as [|y B IH]; [done|].
  rewrite filter_cons_True by (apply Hdisj; left).
  f_equal. apply IH. intros x Hx. apply Hdisj. by right.
Qed.

Lemma set_l_elem_of (si : set_inputs) (x : string) :
  x ∈ set_l si ↔ x ∈ set_p si ∨ x ∈ set_c si ∨ x ∈ set_a si ∨ x ∈ set_d si.
Proof.
  unfold set_l. rewrite Set_elems_elem_of, !SetUnion_elem_of. tauto.
Qed.

(** ** Sums in exact arithmetic *)

Section exact.

Context `{ExactNumber num}.

Lemma num_add_zero_r (a : num) : num_add a num_zero = a.
Proof. by rewrite num_add_comm, num_add_zero_l. Qed.

Lemma num_add_shuffle (a b c d : num) :
  num_add (num_add a b) (num_add c d) = num_add (num_add a c) (num_add b d).
Proof.
  rewrite <- (num_add_assoc a b), (num_add_assoc b c d), (num_add_comm b c).
  by rewrite <- (num_add_assoc c b d), (num_add_assoc a c).
Qed.

Lemma foldl_add_total {A : Type} (f : A → num) (xs : list A) (a : num) :
  foldl (λ acc x, num_add acc (f x)) a xs = num_add a (total (map f xs)).
Proof.
  revert a. induction xs as [|x xs IH]; intros a; cbn.
  - by rewrite num_add_zero_r.
  - by rewrite IH, num_add_assoc.
Qed.

(** In exact arithmetic Python's [sum] is the sum of the list. *)
Lemma sum_over_total {A : Type} (f : A → num) (xs : list A) :
  sum_over f xs = total (map f xs).
Proof. unfold sum_over. by rewrite foldl_add_total, num_add_zero_l. Qed.

Lemma total_app (xs ys : list num) :
  total (xs ++ ys) = num_add (total xs) (total ys).
Proof.
  induction xs as [|x xs IH]; cbn.
  - by rewrite num_add_zero_l.
  - by rewrite IH, num_add_assoc.
Qed.

Lemma total_bind {A B : Type} (f : B → num) (g : A → list B) (xs : list A) :
  total (map f (xs ≫= g)) = total (map (λ x, total (map f (g x))) xs).
Proof.
  induction xs as [|x xs IH]; [done|].
  cbn. rewrite map_app, total_app.
  fold (xs ≫= g). by rewrite IH.
Qed.

Lemma total_ext {A : Type} (f g : A → num) (xs : list A) :
  (∀ x, f x = g x) → total (map f xs) = total (map g xs).
Proof.
  intros Hfg. induction xs as [|x xs IH]; cbn; [done|]. by rewrite Hfg, IH.
Qed.

Lemma total_plus {A : Type} (f g : A → num) (xs : list A) :
  total (map (λ x, num_add (f x) (g x)) xs) =
  num_add (total (map f xs)) (total (map g xs)).
Proof.
  induction xs as [|x xs IH]; cbn.
  - by rewrite num_add_zero_l.
  - by rewrite IH, num_add_shuffle.
Qed.

Lemma total_zero {A : Type} (xs : list A) :
  total (map (λ _, num_zero) xs) = num_zero.
Proof.
  induction xs as [|x xs IH]; cbn; [done|]. by rewrite IH, num_add_zero_l.
Qed.

(** Exchanging the order of a double sum. *)
Lemma total_swap {A B : Type} (g : A → B → num) (xs : list A) (ys : list B) :
  total (map (λ x, total (map (λ y, g x y) ys)) xs) =
  total (map (λ y, total (map (λ x, g x y) xs)) ys).
Proof.
  induction xs as [|x xs IH]; cbn.
  - by rewrite total_zero.
  - by rewrite IH, <- total_plus.
Qed.

Lemma sum_tuples_cons (f : list string → num) (s : list string)
    (rest : list (list string)) :
  total (map f (tuples (s :: rest))) =
  total (map (λ x, total (map (λ k, f (x :: k)) (tuples rest))) s).
Proof.
  cbn [tuples]. rewrite total_bind. apply total_ext. intros x.
  rewrite total_bind. rewrite <- (map_map (λ k, x :: k) f).
  rewrite map_map. apply total_ext. intros k. cbn. apply num_add_zero_r.
Qed.

Lemma sum_tuples_nil (f : list string → num) :
  total (map f (tuples [])) = f [].
Proof. cbn. apply num_add_zero_r. Qed.


(** The nested sums of the rules, last index outermost, against the sum
    over the tuples. *)
Lemma sum_tuples_2 (f : list string → num) (xs ys : list string) :
  total (map f (tuples [xs; ys])) =
  sum_over (λ y, sum_over (λ x, f [x; y]) xs) ys.
Proof.
  rewrite sum_over_total.
  rewrite (total_ext _ (λ y, total (map (λ x, f [x; y]) xs)))
    by (intros; apply sum_over_total).
  rewrite <- total_swap, sum_tuples_cons.
  apply total_ext. intros x. rewrite sum_tuples_cons.
  apply total_ext. intros y. apply sum_tuples_nil.
Qed.

Lemma sum_tuples_3 (f : list string → num) (xs ys zs : list string) :
  total (map f (tuples [xs; ys; zs])) =
  sum_over (λ z, sum_over (λ y, sum_over (λ x, f [x; y; z]) xs) ys) zs.
Proof.
  rewrite sum_over_total.
  rewrite (total_ext _ (λ z, total (map (λ y,
             total (map (λ x, f [x; y; z]) xs)) ys))).
  2:{ intros z. rewrite sum_over_total. apply total_ext. intros y.
      apply sum_over_total. }
  rewrite sum_tuples_cons.
  rewrite (total_ext _ (λ x, total (map (λ z,
             total (map (λ y, f [x; y; z]) ys)) zs))).
  2:{ intros x. rewrite (sum_tuples_2 (λ k, f (x :: k))), sum_over_total.
      apply total_ext. intros z. apply sum_over_total. }
  rewrite total_swap. apply total_ext. intros z. apply total_swap.
Qed.

(** The sum over one member's tuples: the fixed position holds one label. *)
Lemma sum_tuples_fixed_1 (f : list string → num) (xs : list string)
    (y : string) :
  total (map f (tuples [xs; [y]])) = sum_over (λ x, f [x; y]) xs.
Proof.
  rewrite sum_tuples_2. unfold sum_over at 1. cbn. apply num_add_zero_l.
Qed.


End exact.

(** ** The constraints of a returned model *)

Lemma constraints_built_model `{Number num} (si : set_inputs)
    (pi : param_inputs num) :
  constraints (built_model si pi) =
  ("e_drive_times", None, drive_times_body si pi) ::
  map (λ t', ("e_completion_demand", Some t', drive_times_body si pi))
      (set_t si) ++
  [("e_flowback_rates", None, drive_times_body si pi);
   ("e_production_rates", None, drive_times_body si pi);
   ("e_disposal_capacity", None, disposal_capacity_body si pi)] ++
  map (λ d', ("e_two_index_column_param", Some d', two_index_body si pi d'))
      (set_d si).
Proof.
  unfold constraints, built_model. cbn [flat_map map app con_data].
  by rewrite !map_map, app_nil_r.
Qed.

Lemma elem_of_constraints_built_model `{Number num} (si : set_inputs)
    (pi : param_inputs num) (n : string) (i : option string) (e : expr num) :
  (n, i, e) ∈ constraints (built_model si pi) ↔
  (e = drive_times_body si pi ∧
     ((i = None ∧ (n = "e_drive_times" ∨ n = "e_flowback_rates" ∨
                   n = "e_production_rates")) ∨
      (n = "e_completion_demand" ∧ ∃ t', t' ∈ set_t si ∧ i = Some t'))) ∨
  (n = "e_disposal_capacity" ∧ i = None ∧
     e = disposal_capacity_body si pi) ∨
  (n = "e_two_index_column_param" ∧
     ∃ d', d' ∈ set_d si ∧ i = Some d' ∧ e = two_index_body si pi d').
Proof.
  rewrite constraints_built_model, elem_of_cons, !elem_of_app, !elem_of_cons,
    elem_of_nil, !list_elem_of_fmap.
  split.
  - intros [Heq|[(t' & Heq & Ht)|[[Heq|[Heq|[Heq|[]]]]|(d' & Heq & Hd)]]];
      simplify_eq; eauto 10.
  - intros [(-> & [(-> & [->|[->| ->]])|(-> & t' & Ht & ->)])
           |[(-> & -> & ->)|(-> & d' & Hd & -> & ->)]]; eauto 10.
Qed.

(** The rule functions on a returned model: every subscript is inside the
    index sets, so no rule raises. *)
Lemma DriveTimesEquationRule_built `{Number num} (si : set_inputs)
    (pi : param_inputs num) :
  call1 DriveTimesEquationRule (built_model si pi) =
  inr (drive_times_body si pi).
Proof. apply DriveTimesEquationRule_run; reflexivity. Qed.

Lemma DisposalCapacityRule_built `{Number num} (si : set_inputs)
    (pi : param_inputs num) :
  call1 DisposalCapacityRule (built_model si pi) =
  inr (disposal_capacity_body si pi).
Proof. apply DisposalCapacityRule_run; reflexivity. Qed.

Lemma TwoIndexColumnParameterRule_built `{Number num} (si : set_inputs)
    (pi : param_inputs num) (d' : string) :
  d' ∈ set_d si →
  call2 TwoIndexColumnParameterRule (built_model si pi) d' =
  inr (two_index_body si pi d').
Proof.
  intros Hd.
  apply (TwoIndexColumnParameterRule_run _ d' _ (set_d si));
    try reflexivity; [|done].
  unfold get_var_member. cbn. by rewrite decide_True.
Qed.

Lemma CompletionDemandRule_built `{Number num} (si : set_inputs)
    (pi : param_inputs num) (t' : string) :
  t' ∈ set_t si →
  call2 CompletionDemandRule (built_model si pi) t' =
  inr (VarRef "v_completion_demand" (Some t') ==
       sum_over (λ c',
         param_value (mkParam "p_completion_demand" [set_c si; set_t si]
                        (CompletionsDemand pi)) [c'; t']) (set_c si)).
Proof.
  intros Ht.
  apply (CompletionDemandRule_run _ t' _ (set_c si) (set_t si));
    try reflexivity; [|done].
  unfold get_var_member. cbn. by rewrite decide_True.
Qed.

Lemma CompletionDemandRule_built_outside `{Number num} (si : set_inputs)
    (pi : param_inputs num) (t' : string) :
  t' ∉ set_t si →
  call2 CompletionDemandRule (built_model si pi) t' =
  inl (KeyError_index "v_completion_demand").
Proof.
  intros Ht. cbn. unfold get_var_member. cbn. by rewrite decide_False.
Qed.

Lemma FlowBackRatesRule_built `{Number num} (si : set_inputs)
    (pi : param_inputs num) :
  call1 FlowBackRatesRule (built_model si pi) =
  inr (VarRef "v_flowback_rates" None ==
       sum_over (λ t', sum_over (λ c',
         param_value (mkParam "p_flowback_rates" [set_c si; set_t si]
                        (FlowbackRates pi)) [c'; t']) (set_c si)) (set_t si)).
Proof. apply FlowBackRatesRule_run; reflexivity. Qed.

Lemma ProductionRatesRule_built `{Number num} (si : set_inputs)
    (pi : param_inputs num) :
  call1 ProductionRatesRule (built_model si pi) =
  inr (VarRef "v_production_rates" None ==
       sum_over (λ t', sum_over (λ a', sum_over (λ p',
         param_value (mkParam "p_production_rates"
                        [set_p si; set_a si; set_t si] (ProductionRates pi))
           [p'; a'; t']) (set_p si)) (set_a si)) (set_t si)).
Proof. apply ProductionRatesRule_run; reflexivity. Qed.

(** The right-hand side of every constraint of a returned model is what
    the rule function of its variable computes. *)
Lemma rule_aggregate_built `{Number num} (si : set_inputs)
    (pi : param_inputs num) (n : string) (i : option string) (e : expr num) :
  (n, i, e) ∈ constraints (built_model si pi) →
  rule_aggregate (built_model si pi) (lhs e) = rhs e.
Proof.
  rewrite elem_of_constraints_built_model.
  intros [(-> & _)|[(_ & _ & ->)|(_ & d' & Hd & _ & ->)]];
    unfold rule_aggregate.
  - change (own_rule (vr_name (lhs (drive_times_body si pi))))
      with (Some (DriveTimesEquationRule (num:=num))).
    cbn [lhs drive_times_body vr_index].
    by rewrite DriveTimesEquationRule_built.
  - change (own_rule (vr_name (lhs (disposal_capacity_body si pi))))
      with (Some (DisposalCapacityRule (num:=num))).
    cbn [lhs disposal_capacity_body vr_index].
    by rewrite DisposalCapacityRule_built.
  - change (own_rule (vr_name (lhs (two_index_body si pi d'))))
      with (Some (TwoIndexColumnParameterRule (num:=num))).
    cbn [lhs two_index_body vr_index].
    by rewrite TwoIndexColumnParameterRule_built.
Qed.


Lemma eval_assign_other `{Number num} (σ : assignment num) (n : string)
    (z : num) (e : expr num) :
  vr_name (lhs e) ≠ n → eval (assign σ n z) e = eval σ e.
Proof.
  intros Hne. unfold eval, assign.
  destruct (String.eqb_spec (vr_name (lhs e)) n); done.
Qed.

(** ** The data loader *)

Section get_data_lemmas.

Context {sheet : Type}.

Lemma read_tab_bad {A : Type} (parse : sheet → option A)
    (wb : gmap string sheet) (name : string) :
  ¬ tab_ok parse wb name →
  read_tab parse wb name = inl (DataFormatError name).
Proof.
  intros Hbad. unfold read_tab.
  destruct (wb !! name) as [s|] eqn:Hs; [|done].
  destruct (parse s) as [v|] eqn:Hv; [|done].
  destruct Hbad. by exists s, v.
Qed.

Lemma read_tab_inl {A : Type} (parse : sheet → option A)
    (wb : gmap string sheet) (name : string) (e : exn) :
  read_tab parse wb name = inl e →
  e = DataFormatError name ∧ ¬ tab_ok parse wb name.
Proof.
  unfold read_tab. intros Hr.
  destruct (wb !! name) as [s|] eqn:Hs.
  - destruct (parse s) as [v|] eqn:Hv; [done|].
    injection Hr as <-. split; [done|].
    intros (s' & v' & Hs' & Hv'). congruence.
  - injection Hr as <-. split; [done|].
    intros (s' & v' & Hs' & Hv'). congruence.
Qed.


(** [mapM] stops at the first element that fails. *)
Lemma mapM_inl_exists {A B : Type} (f : A → result B) (xs : list A) :
  (∃ x, x ∈ xs ∧ ∃ e, f x = inl e) →
  ∃ x e, x ∈ xs ∧ f x = inl e ∧ mapM f xs = inl e.
Proof.
  induction xs as [|y xs IH]; intros (x & Hx & e & He).
  - by apply elem_of_nil in Hx.
  - cbn. destruct (f y) as [e'|b] eqn:Hy.
    + exists y, e'. split_and!; [left|done|done].
    + apply elem_of_cons in Hx as [->|Hx]; [congruence|].
      destruct IH as (x' & e' & Hx' & He' & Hm); [by eauto|].
      exists x', e'. split_and!; [by right|done|].
      cbn. by rewrite Hm.
Qed.

Lemma mapM_inl_elem {A B : Type} (f : A → result B) (xs : list A) (e : exn) :
  mapM f xs = inl e → ∃ x, x ∈ xs ∧ f x = inl e.
Proof.
  induction xs as [|y xs IH]; [done|].
  cbn. destruct (f y) as [e'|b] eqn:Hy.
  - intros [= <-]. exists y. split; [left|done].
  - cbn. destruct (mapM f xs) as [e'|bs] eqn:Hm; [|done].
    intros [= <-]. destruct IH as (x & Hx & He); [done|].
    exists x. split; [by right|done].
Qed.


End get_data_lemmas.

(** ** The properties of the specification *)




(** C2: on [static_heap], under Pyomo 5.7, the registered
    [e_flowback_rates] and [e_production_rates] each assert
    [v_drive_times == 7], where the aggregation rule of the specification
    asserts [v_flowback_rates == 0] and [v_production_rates == 0]. *)
Theorem C2_flowback_production_bodies_diverge :
  create_model Pyomo_5_7 0 1 static_heap =
    (inr 2, static_heap ++ [PyModel static_model]) ∧
  members static_model "e_flowback_rates" =
    [(None, VarRef "v_drive_times" None == 7%Z)] ∧
  (spec_members static_model <$> spec_of "e_flowback_rates") =
    Some [(None, VarRef "v_flowback_rates" None == 0%Z)] ∧
  members static_model "e_production_rates" =
    [(None, VarRef "v_drive_times" None == 7%Z)] ∧
  (spec_members static_model <$> spec_of "e_production_rates") =
    Some [(None, VarRef "v_production_rates" None == 0%Z)].
Proof. split_and!; vm_compute; reflexivity. Qed.

(** C3: on the scenario of the specification, wherever the two
    dictionaries are in the heap, [create_model] under Pyomo 5.7 returns a
    new model whose disposal-capacity constraint is scalar and has the one
    member [v_disposal_capacity == 50]: it holds exactly when
    [v_disposal_capacity] is 50. *)
Theorem C3_scenario_disposal_capacity_is_50 (h : heap Z) (ds dp : nat) :
  h !! ds = Some (PyDictSets scenario_sets) →
  h !! dp = Some (PyDictParams scenario_parameters) →
  ∃ mdl C,
    create_model Pyomo_5_7 ds dp h = (inr (length h), h ++ [PyModel mdl]) ∧
    block_lookup "e_disposal_capacity" mdl = Some (CConstraint C) ∧
    con_index C = None ∧ con_rule C = "DisposalCapacityRule" ∧
    members mdl "e_disposal_capacity" =
      [(None, VarRef "v_disposal_capacity" None == 50%Z)] ∧
    ∀ σ i e, (i, e) ∈ members mdl "e_disposal_capacity" →
      (eval σ e = true ↔ σ (VarRef "v_disposal_capacity" None) = 50%Z).
Proof.
  intros Hds Hdp.
  exists (built_model scenario_set_inputs scenario_param_inputs). eexists.
  split.
  { apply (create_model_runs Pyomo_5_7 h ds dp scenario_sets
             scenario_parameters); [done | done | ..].
    - repeat split; vm_compute; reflexivity.
    - repeat split; vm_compute; reflexivity.
    - repeat split; refine (bool_decide_unpack _ _); vm_compute; exact I. }
  split; [reflexivity|]. split; [reflexivity|]. split; [reflexivity|].
  assert (members (built_model scenario_set_inputs scenario_param_inputs)
            "e_disposal_capacity" =
          [(None, VarRef "v_disposal_capacity" None == 50%Z)]) as ->
    by (vm_compute; reflexivity).
  split; [done|].
  intros σ i e He. apply list_elem_of_singleton in He.
  injection He as -> ->. unfold eval. cbn. apply Z.eqb_eq.
Qed.

Lemma C3_witness :
  ∃ mdl C,
    create_model Pyomo_5_7 0 1 scenario_heap =
      (inr (length scenario_heap), scenario_heap ++ [PyModel mdl]) ∧
    block_lookup "e_disposal_capacity" mdl = Some (CConstraint C) ∧
    con_index C = None ∧ con_rule C = "DisposalCapacityRule" ∧
    members mdl "e_disposal_capacity" =
      [(None, VarRef "v_disposal_capacity" None == 50%Z)] ∧
    ∀ σ i e, (i, e) ∈ members mdl "e_disposal_capacity" →
      (eval σ e = true ↔ σ (VarRef "v_disposal_capacity" None) = 50%Z).
Proof.
  apply (C3_scenario_disposal_capacity_is_50 scenario_heap 0 1); reflexivity.
Defined.




(** C5: in every model [create_model] returns, [e_completion_demand],
    [e_flowback_rates] and [e_production_rates] carry the rule
    [DriveTimesEquationRule]; every member of the three has the body that
    rule returns on the model, [v_drive_times == sum of p_drive_times over
    l x l]: one member per label of [t] for [e_completion_demand], and one
    member for each of the other two.  That body differs from the body of
    the rule defined above each registration, which each of those rules
    does return on the model. *)
Theorem C5_registered_with_DriveTimesEquationRule `{Number num} (py : pyomo)
    (h : heap num) (ds dp : nat) (dS : gmap string (list string))
    (dP : gmap string (table num)) (m : nat) (h' : heap num) :
  h !! ds = Some (PyDictSets dS) →
  h !! dp = Some (PyDictParams dP) →
  create_model py ds dp h = (inr m, h') →
  ∃ mdl e l t P,
    h' !! m = Some (PyModel mdl) ∧
    call1 DriveTimesEquationRule mdl = inr e ∧
    get_set mdl "l" = inr l ∧ get_set mdl "t" = inr t ∧
    get_param mdl "p_drive_times" = inr P ∧
    e = (VarRef "v_drive_times" None ==
         sum_over (λ ll, sum_over (λ l', param_value P [l'; ll]) l) l) ∧
    (∀ n, n ∈ ["e_completion_demand"; "e_flowback_rates";
               "e_production_rates"] →
       ∃ C, block_lookup n mdl = Some (CConstraint C) ∧
            con_rule C = rule_name (DriveTimesEquationRule (num:=num)) ∧
            ∀ i e', (i, e') ∈ con_data C → e' = e) ∧
    members mdl "e_completion_demand" = map (λ t', (Some t', e)) t ∧
    members mdl "e_flowback_rates" = [(None, e)] ∧
    members mdl "e_production_rates" = [(None, e)] ∧
    (∃ e_fb, call1 FlowBackRatesRule mdl = inr e_fb ∧ e_fb ≠ e) ∧
    (∃ e_pr, call1 ProductionRatesRule mdl = inr e_pr ∧ e_pr ≠ e) ∧
    (∀ t', t' ∈ t →
       ∃ e_cd, call2 CompletionDemandRule mdl t' = inr e_cd ∧ e_cd ≠ e).
Proof.
  intros Hds Hdp Hrun.
  destruct (create_model_returns _ _ _ _ _ _ _ _ Hds Hdp Hrun)
    as (_ & si & pi & _ & _ & _ & _ & _ & Hm).
  exists (built_model si pi), (drive_times_body si pi), (set_l si),
    (set_t si), (mkParam "p_drive_times" [set_l si; set_l si] (DriveTimes pi)).
  split_and!; try done.
  - apply DriveTimesEquationRule_built.
  - intros n Hn.
    rewrite !elem_of_cons, elem_of_nil in Hn.
    destruct Hn as [->|[->|[->|[]]]]; eexists; (split; [reflexivity|]);
      (split; [reflexivity|]); cbn; intros i e' He'.
    + apply list_elem_of_fmap in He' as (t' & He' & _). by simplify_eq.
    + apply list_elem_of_singleton in He'. by simplify_eq.
    + apply list_elem_of_singleton in He'. by simplify_eq.
  - eexists. split; [apply FlowBackRatesRule_built|]. discriminate.
  - eexists. split; [apply ProductionRatesRule_built|]. discriminate.
  - intros t' Ht'. eexists.
    split; [by apply CompletionDemandRule_built|]. discriminate.
Qed.

Lemma C5_witness :
  ∃ mdl e l t P,
    (periods_heap ++ [PyModel periods_model]) !! 2 = Some (PyModel mdl) ∧
    call1 DriveTimesEquationRule mdl = inr e ∧
    get_set mdl "l" = inr l ∧ get_set mdl "t" = inr t ∧
    get_param mdl "p_drive_times" = inr P ∧
    e = (VarRef "v_drive_times" None ==
         sum_over (λ ll, sum_over (λ l', param_value P [l'; ll]) l) l) ∧
    (∀ n, n ∈ ["e_completion_demand"; "e_flowback_rates";
               "e_production_rates"] →
       ∃ C, block_lookup n mdl = Some (CConstraint C) ∧
            con_rule C = rule_name (DriveTimesEquationRule (num:=Z)) ∧
            ∀ i e', (i, e') ∈ con_data C → e' = e) ∧
    members mdl "e_completion_demand" = map (λ t', (Some t', e)) t ∧
    members mdl "e_flowback_rates" = [(None, e)] ∧
    members mdl "e_production_rates" = [(None, e)] ∧
    (∃ e_fb, call1 FlowBackRatesRule mdl = inr e_fb ∧ e_fb ≠ e) ∧
    (∃ e_pr, call1 ProductionRatesRule mdl = inr e_pr ∧ e_pr ≠ e) ∧
    (∀ t', t' ∈ t →
       ∃ e_cd, call2 CompletionDemandRule mdl t' = inr e_cd ∧ e_cd ≠ e).
Proof.
  apply (C5_registered_with_DriveTimesEquationRule Pyomo_5_7 periods_heap 0 1
           periods_sets periods_parameters 2 _);
    [reflexivity | reflexivity | vm_compute; reflexivity].
Defined.

(** C6: in every model [create_model] returns, a label is in [l] exactly
    when it is in one of [p], [c], [a], [d], which hold the labels of
    ProductionPads, CompletionsPads, ProductionTanks and SWDSites; [l] has
    no duplicate; [t] holds the labels of TimePeriods, and a label of [t]
    that is in none of the four is not in [l]. *)
Theorem C6_union_set_exact `{Number num} (py : pyomo) (h : heap num)
    (ds dp : nat) (dS : gmap string (list string))
    (dP : gmap string (table num)) (m : nat) (h' : heap num) :
  h !! ds = Some (PyDictSets dS) →
  h !! dp = Some (PyDictParams dP) →
  create_model py ds dp h = (inr m, h') →
  ∃ mdl p c a d t l si,
    h' !! m = Some (PyModel mdl) ∧ sets_present dS si ∧
    get_set mdl "p" = inr p ∧ get_set mdl "c" = inr c ∧
    get_set mdl "a" = inr a ∧ get_set mdl "d" = inr d ∧
    get_set mdl "t" = inr t ∧ get_set mdl "l" = inr l ∧
    (∀ x, x ∈ p ↔ x ∈ ProductionPads si) ∧
    (∀ x, x ∈ c ↔ x ∈ CompletionsPads si) ∧
    (∀ x, x ∈ a ↔ x ∈ ProductionTanks si) ∧
    (∀ x, x ∈ d ↔ x ∈ SWDSites si) ∧
    (∀ x, x ∈ t ↔ x ∈ TimePeriods si) ∧
    (∀ x, x ∈ l ↔ x ∈ p ∨ x ∈ c ∨ x ∈ a ∨ x ∈ d) ∧
    NoDup l ∧
    (∀ x, x ∈ t → x ∈ l → x ∈ p ∨ x ∈ c ∨ x ∈ a ∨ x ∈ d) ∧
    (∀ x, x ∈ t → x ∉ p → x ∉ c → x ∉ a → x ∉ d → x ∉ l).
Proof.
  intros Hds Hdp Hrun.
  destruct (create_model_returns _ _ _ _ _ _ _ _ Hds Hdp Hrun)
    as (_ & si & pi & Hsi & _ & _ & _ & _ & Hm).
  exists (built_model si pi), (set_p si), (set_c si), (set_a si), (set_d si),
    (set_t si), (set_l si), si.
  split_and!; try done; try (intros x; apply Set_elems_elem_of).
  - apply set_l_elem_of.
  - apply Set_elems_NoDup.
  - intros x _. apply set_l_elem_of.
  - intros x _ Hp Hc Ha Hd Hl. apply set_l_elem_of in Hl. tauto.
Qed.

Lemma C6_witness :
  ∃ mdl p c a d t l si,
    (periods_heap ++ [PyModel periods_model]) !! 2 = Some (PyModel mdl) ∧
    sets_present periods_sets si ∧
    get_set mdl "p" = inr p ∧ get_set mdl "c" = inr c ∧
    get_set mdl "a" = inr a ∧ get_set mdl "d" = inr d ∧
    get_set mdl "t" = inr t ∧ get_set mdl "l" = inr l ∧
    (∀ x, x ∈ p ↔ x ∈ ProductionPads si) ∧
    (∀ x, x ∈ c ↔ x ∈ CompletionsPads si) ∧
    (∀ x, x ∈ a ↔ x ∈ ProductionTanks si) ∧
    (∀ x, x ∈ d ↔ x ∈ SWDSites si) ∧
    (∀ x, x ∈ t ↔ x ∈ TimePeriods si) ∧
    (∀ x, x ∈ l ↔ x ∈ p ∨ x ∈ c ∨ x ∈ a ∨ x ∈ d) ∧
    NoDup l ∧
    (∀ x, x ∈ t → x ∈ l → x ∈ p ∨ x ∈ c ∨ x ∈ a ∨ x ∈ d) ∧
    (∀ x, x ∈ t → x ∉ p → x ∉ c → x ∉ a → x ∉ d → x ∉ l).
Proof.
  apply (C6_union_set_exact Pyomo_5_7 periods_heap 0 1 periods_sets
           periods_parameters 2 _);
    [reflexivity | reflexivity | vm_compute; reflexivity].
Defined.

(** C7, as stated, fails: [CompletionsDemand] is absent, and the
    [KeyError] that [create_model] raises is for the key [("X", "Y")] of
    [DriveTimes], which is outside [l x l], not for the absent name. *)
Lemma C7_counterexample :
  stray_drive_times !! 1 = Some (PyDictParams stray_parameters) ∧
  "CompletionsDemand" ∈ parameter_names ∧
  stray_parameters !! "CompletionsDemand" = None ∧
  (create_model Pyomo_5_7 0 1 stray_drive_times).1 =
    inl (KeyError_index "p_drive_times") ∧
  (create_model Pyomo_6_1 0 1 stray_drive_times).1 =
    inl (KeyError_index "p_drive_times") ∧
  ¬ ∃ py k, (create_model py 0 1 stray_drive_times).1 = inl (KeyError k).
Proof.
  split_and!; [reflexivity | | vm_compute; reflexivity
              | vm_compute; reflexivity | vm_compute; reflexivity |].
  - unfold parameter_names. set_solver.
  - intros (py & k & Hk). destruct py; vm_compute in Hk; discriminate Hk.
Qed.

(** C7, amended: when a set name or a parameter name is absent,
    [create_model] returns no model and raises a [KeyError]: either for a
    name that is absent, or for a key of a parameter table that is present
    and lies outside the table's index sets.  It is for an absent set name
    whenever a set name is absent, and for an absent name whenever every
    table that is present has its keys inside its index sets. *)
Theorem C7_missing_name_raises_KeyError `{Number num} (py : pyomo)
    (h : heap num) (ds dp : nat) (dS : gmap string (list string))
    (dP : gmap string (table num)) :
  h !! ds = Some (PyDictSets dS) →
  h !! dp = Some (PyDictParams dP) →
  name_missing dS dP →
  (∀ m h', create_model py ds dp h ≠ (inr m, h')) ∧
  ((∃ k, (create_model py ds dp h).1 = inl (KeyError k) ∧
         ((k ∈ set_names ∧ dS !! k = None) ∨
          (k ∈ parameter_names ∧ dP !! k = None))) ∨
   (∃ comp si k index tbl,
      (create_model py ds dp h).1 = inl (KeyError_index comp) ∧
      sets_present dS si ∧ (k, comp, index) ∈ param_specs si ∧
      dP !! k = Some tbl ∧ ¬ valid_table index tbl)) ∧
  ((∃ k, k ∈ set_names ∧ dS !! k = None) →
   ∃ k, k ∈ set_names ∧ dS !! k = None ∧
        (create_model py ds dp h).1 = inl (KeyError k)) ∧
  ((∀ si k comp index tbl,
      sets_present dS si → (k, comp, index) ∈ param_specs si →
      dP !! k = Some tbl → valid_table index tbl) →
   ∃ k, (create_model py ds dp h).1 = inl (KeyError k) ∧
        ((k ∈ set_names ∧ dS !! k = None) ∨
         (k ∈ parameter_names ∧ dP !! k = None))).
Proof.
  intros Hds Hdp Hmiss.
  assert (Hpresent : ∀ si pi, sets_present dS si → params_present dP pi →
            False).
  { intros si pi (?&?&?&?&?) (?&?&?&?&?&?).
    destruct Hmiss as [(k & Hk & Hnone)|(k & Hk & Hnone)].
    - unfold set_names in Hk. rewrite !elem_of_cons, elem_of_nil in Hk.
      destruct Hk as [->|[->|[->|[->|[->|[]]]]]]; congruence.
    - unfold parameter_names in Hk. rewrite !elem_of_cons, elem_of_nil in Hk.
      destruct Hk as [->|[->|[->|[->|[->|[->|[]]]]]]]; congruence. }
  assert (Hset : ∀ si k, sets_present dS si → k ∈ set_names →
            dS !! k = None → False).
  { intros si k (?&?&?&?&?) Hk Hnone.
    unfold set_names in Hk. rewrite !elem_of_cons, elem_of_nil in Hk.
    destruct Hk as [->|[->|[->|[->|[->|[]]]]]]; congruence. }
  destruct (create_model_total py ds dp h) as (r & h' & Hrun).
  destruct (create_model_outcome _ _ _ _ _ _ _ _ Hds Hdp Hrun)
    as (mdl & -> & Hex).
  rewrite Hrun. cbn [fst].
  destruct r as [e|m]; cbn [explains] in Hex.
  2:{ destruct Hex as (_ & _ & si & pi & Hsi & Hpi & _).
      by destruct (Hpresent si pi). }
  split; [done|].
  destruct e as [k|comp|comp|callee given| | |]; try done.
  - (* KeyError for a name *)
    assert (Hk : (k ∈ set_names ∧ dS !! k = None) ∨
                 (k ∈ parameter_names ∧ dP !! k = None)).
    { destruct Hex as [(pre & suf & Hk & _ & Hnone & _)
                      |(si & pre & comp & index & suf & _ & Hk & _ & Hnone & _)].
      - left. split; [|done]. rewrite Hk. apply elem_of_app. right. left.
      - right. split; [|done]. apply (param_specs_name si k comp index).
        rewrite Hk. apply elem_of_app. right. left. }
    split_and!; [left; eauto | | eauto].
    intros (k' & Hk' & Hnone').
    destruct Hex as [(pre & suf & Hks & _ & Hnone & _)
                    |(si & _ & _ & _ & _ & Hsi & _)].
    + exists k. split_and!; [|done..]. rewrite Hks.
      apply elem_of_app. right. left.
    + by destruct (Hset si k').
  - (* KeyError for a key of a table *)
    destruct Hex as (si & pre & k & index & suf & tbl & Hsi & Hk & _ & Htbl &
                     Hbad & _).
    assert ((k, comp, index) ∈ param_specs si) as Hin
      by (rewrite Hk; apply elem_of_app; right; left).
    split_and!; [right; eauto 10 | |].
    + intros (k' & Hk' & Hnone'). by destruct (Hset si k').
    + intros Hvalid. destruct Hbad. by eapply Hvalid.
  - (* IndexError: every name would be present *)
    destruct Hex as (_ & _ & si & pi & Hsi & Hpi & _).
    by destruct (Hpresent si pi).
Qed.

Lemma C7_witness :
  (∀ m h', create_model Pyomo_5_7 0 1 only_time_periods ≠ (inr m, h')) ∧
  ((∃ k, (create_model Pyomo_5_7 0 1 only_time_periods).1 = inl (KeyError k) ∧
         ((k ∈ set_names ∧
           ({[ "TimePeriods" := ["T1"] ]} : gmap string (list string)) !! k
             = None) ∨
          (k ∈ parameter_names ∧ (∅ : gmap string (table Z)) !! k = None))) ∨
   (∃ comp si k index tbl,
      (create_model Pyomo_5_7 0 1 only_time_periods).1 =
        inl (KeyError_index comp) ∧
      sets_present {[ "TimePeriods" := ["T1"] ]} si ∧
      (k, comp, index) ∈ param_specs si ∧
      (∅ : gmap string (table Z)) !! k = Some tbl ∧
      ¬ valid_table index tbl)) ∧
  ((∃ k, k ∈ set_names ∧
         ({[ "TimePeriods" := ["T1"] ]} : gmap string (list string)) !! k
           = None) →
   ∃ k, k ∈ set_names ∧
        ({[ "TimePeriods" := ["T1"] ]} : gmap string (list string)) !! k
          = None ∧
        (create_model Pyomo_5_7 0 1 only_time_periods).1 = inl (KeyError k)) ∧
  ((∀ si k comp index tbl,
      sets_present {[ "TimePeriods" := ["T1"] ]} si →
      (k, comp, index) ∈ param_specs si →
      (∅ : gmap string (table Z)) !! k = Some tbl → valid_table index tbl) →
   ∃ k, (create_model Pyomo_5_7 0 1 only_time_periods).1 = inl (KeyError k) ∧
        ((k ∈ set_names ∧
          ({[ "TimePeriods" := ["T1"] ]} : gmap string (list string)) !! k
            = None) ∨
         (k ∈ parameter_names ∧ (∅ : gmap string (table Z)) !! k = None))).
Proof.
  apply (C7_missing_name_raises_KeyError Pyomo_5_7 only_time_periods 0 1
           {[ "TimePeriods" := ["T1"] ]} ∅);
    [reflexivity | reflexivity |].
  left. exists "ProductionPads". split; [|vm_compute; reflexivity].
  apply (list_elem_of_lookup_2 _ 0). reflexivity.
Defined.

Section get_data_claim.

Context `{Number num} {sheet : Type}.
Variable py : pyomo.
Variable parse_set : sheet → option (list string).
Variable parse_parameter : sheet → option (table num).

(** C8: when the file is there and one of the requested set tabs or
    parameter tabs is absent or malformed, [get_data] raises
    [DataFormatError] for such a tab and leaves the heap as it was: no
    mapping is returned or allocated.  The script then raises the same
    error without calling [create_model], so no model is allocated
    either. *)
Theorem C8_get_data_DataFormatError
    (fs : gmap string (gmap string sheet)) (fpath : string)
    (wb : gmap string sheet) (sets params : list string) (h : heap num) :
  fs !! fpath = Some wb →
  (∃ n, bad_tab parse_set parse_parameter wb sets params n) →
  ∃ n, bad_tab parse_set parse_parameter wb sets params n ∧
       get_data parse_set parse_parameter fs fpath sets params h = (inl (DataFormatError n), h) ∧
       (sets = set_list → params = parameter_list →
        main py parse_set parse_parameter fs fpath h = (inl (DataFormatError n), h)).
Proof.
  intros Hwb (n0 & Hbad).
  assert (∃ n, bad_tab parse_set parse_parameter wb sets params n ∧
               get_data parse_set parse_parameter fs fpath sets params h =
                 (inl (DataFormatError n), h)) as (n & Hn & Hget).
  { unfold get_data. rewrite Hwb.
    destruct (mapM (read_tab parse_set wb) sets) as [e|df_sets] eqn:Hsets.
    - apply mapM_inl_elem in Hsets as (x & Hx & He).
      apply read_tab_inl in He as [-> Hnok].
      exists x. split; [by left|done].
    - destruct (mapM (read_tab parse_parameter wb) params)
        as [e|df_parameters] eqn:Hparams.
      + apply mapM_inl_elem in Hparams as (x & Hx & He).
        apply read_tab_inl in He as [-> Hnok].
        exists x. split; [by right|done].
      + exfalso. destruct Hbad as [[Hin Hnok]|[Hin Hnok]].
        * destruct (mapM_inl_exists (read_tab parse_set wb) sets)
            as (? & ? & _ & _ & Hm); [|congruence].
          exists n0. split; [done|]. eexists. by apply read_tab_bad.
        * destruct (mapM_inl_exists (read_tab parse_parameter wb) params)
            as (? & ? & _ & _ & Hm); [|congruence].
          exists n0. split; [done|]. eexists. by apply read_tab_bad. }
  exists n. split_and!; [done..|].
  intros -> ->. unfold main. rewrite Py_bind_run, Hget. done.
Qed.

End get_data_claim.

Lemma C8_witness :
  ∃ n, bad_tab (num:=Z) (λ s, Some (concat s)) (λ _, Some ∅) ∅ set_list
         parameter_list n ∧
       get_data (num:=Z) (λ s, Some (concat s)) (λ _, Some ∅) empty_workbook
         "toy_case_study.xlsx" set_list parameter_list []
       = (inl (DataFormatError n), []) ∧
       (set_list = set_list → parameter_list = parameter_list →
        main (num:=Z) Pyomo_5_7 (λ s, Some (concat s)) (λ _, Some ∅)
          empty_workbook "toy_case_study.xlsx" []
        = (inl (DataFormatError n), [])).
Proof.
  apply (C8_get_data_DataFormatError Pyomo_5_7 (λ s, Some (concat s))
           (λ _, Some ∅) empty_workbook "toy_case_study.xlsx" ∅ set_list
           parameter_list []);
    [reflexivity|].
  exists "ProductionPads". left. split.
  - apply (list_elem_of_lookup_2 _ 0). reflexivity.
  - intros (s & v & Hs & _). vm_compute in Hs. discriminate Hs.
Defined.

(** C9: a call of [create_model] on two dictionaries changes no object that
    was in the heap before it, whether it returns or raises: the two
    dictionaries are what they were, and the one object the call allocates
    is a model.  A model it returns is at a location that was free before
    the call.  A later call, on the same or on other dictionaries, leaves
    that model as it is and returns, if it returns, a different object. *)
Theorem C9_create_model_frame `{Number num} (py : pyomo) (h : heap num)
    (ds dp : nat) (dS : gmap string (list string))
    (dP : gmap string (table num)) (r : result nat) (h' : heap num) :
  h !! ds = Some (PyDictSets dS) →
  h !! dp = Some (PyDictParams dP) →
  create_model py ds dp h = (r, h') →
  h' !! ds = Some (PyDictSets dS) ∧
  h' !! dp = Some (PyDictParams dP) ∧
  (∀ l o, h !! l = Some o → h' !! l = Some o) ∧
  (∃ mdl, h' = h ++ [PyModel mdl]) ∧
  (∀ m, r = inr m → h !! m = None ∧ ∃ mdl, h' !! m = Some (PyModel mdl)) ∧
  (∀ m py2 ds2 dp2 dS2 dP2 r2 h'',
     r = inr m →
     h' !! ds2 = Some (PyDictSets dS2) →
     h' !! dp2 = Some (PyDictParams dP2) →
     create_model py2 ds2 dp2 h' = (r2, h'') →
     r2 ≠ inr m ∧ h'' !! m = h' !! m).
Proof.
  intros Hds Hdp Hrun.
  destruct (create_model_outcome _ _ _ _ _ _ _ _ Hds Hdp Hrun)
    as (mdl & -> & Hex).
  assert (Hframe : ∀ l o, h !! l = Some o → (h ++ [PyModel mdl]) !! l = Some o).
  { intros l o Hl. by apply lookup_app_l_Some. }
  split_and!; eauto.
  - intros m ->. destruct Hex as (_ & -> & _). split.
    + by apply lookup_ge_None_2.
    + exists mdl. apply model_lookup.
  - intros m py2 ds2 dp2 dS2 dP2 r2 h'' -> Hds2 Hdp2 Hrun2.
    destruct Hex as (_ & -> & _).
    destruct (create_model_outcome _ _ _ _ _ _ _ _ Hds2 Hdp2 Hrun2)
      as (mdl2 & -> & Hex2).
    split.
    + intros ->. destruct Hex2 as (_ & Hlen & _).
      rewrite length_app in Hlen. cbn in Hlen. lia.
    + apply lookup_app_l. rewrite length_app. cbn. lia.
Qed.

Lemma C9_witness :
  (periods_heap ++ [PyModel periods_model]) !! 0 =
    Some (PyDictSets periods_sets) ∧
  (periods_heap ++ [PyModel periods_model]) !! 1 =
    Some (PyDictParams periods_parameters) ∧
  (∀ l o, periods_heap !! l = Some o →
          (periods_heap ++ [PyModel periods_model]) !! l = Some o) ∧
  (∃ mdl, periods_heap ++ [PyModel periods_model] =
          periods_heap ++ [PyModel mdl]) ∧
  (∀ m, @inr exn nat 2 = inr m →
        periods_heap !! m = None ∧
        ∃ mdl, (periods_heap ++ [PyModel periods_model]) !! m =
               Some (PyModel mdl)) ∧
  (∀ m py2 ds2 dp2 dS2 dP2 r2 h'',
     @inr exn nat 2 = inr m →
     (periods_heap ++ [PyModel periods_model]) !! ds2 =
       Some (PyDictSets dS2) →
     (periods_heap ++ [PyModel periods_model]) !! dp2 =
       Some (PyDictParams dP2) →
     create_model py2 ds2 dp2 (periods_heap ++ [PyModel periods_model])
       = (r2, h'') →
     r2 ≠ inr m ∧ h'' !! m = (periods_heap ++ [PyModel periods_model]) !! m).
Proof.
  apply (C9_create_model_frame Pyomo_5_7 periods_heap 0 1 periods_sets
           periods_parameters (inr 2) _);
    [reflexivity | reflexivity | vm_compute; reflexivity].
Defined.

(** C10: in every model [create_model] returns, no constraint mentions
    [v_flowback_rates] or [v_production_rates]: every member of
    [e_flowback_rates] and [e_production_rates], and there is one of each,
    constrains [v_drive_times].  So the value of every constraint is the
    same whatever the two variables are set to: an assignment that
    satisfies the constraints still does after the two variables are given
    any values, non-negative ones included, and such assignments exist
    unless a sum of the model is a float NaN. *)
Theorem C10_flowback_production_unconstrained `{Number num} (py : pyomo)
    (h : heap num) (ds dp : nat) (dS : gmap string (list string))
    (dP : gmap string (table num)) (m : nat) (h' : heap num) :
  h !! ds = Some (PyDictSets dS) →
  h !! dp = Some (PyDictParams dP) →
  create_model py ds dp h = (inr m, h') →
  ∃ mdl,
    h' !! m = Some (PyModel mdl) ∧
    get_var mdl "v_flowback_rates" = inr (VarRef "v_flowback_rates" None) ∧
    get_var mdl "v_production_rates" = inr (VarRef "v_production_rates" None) ∧
    (∀ n i e, (n, i, e) ∈ constraints mdl →
       vr_name (lhs e) ≠ "v_flowback_rates" ∧
       vr_name (lhs e) ≠ "v_production_rates") ∧
    (∃ e, lhs e = VarRef "v_drive_times" None ∧
          members mdl "e_flowback_rates" = [(None, e)] ∧
          members mdl "e_production_rates" = [(None, e)]) ∧
    (∀ σ x y n i e, (n, i, e) ∈ constraints mdl →
       eval (assign (assign σ "v_flowback_rates" x) "v_production_rates" y) e
       = eval σ e) ∧
    (∀ σ x y, satisfies σ mdl →
       satisfies (assign (assign σ "v_flowback_rates" x)
                    "v_production_rates" y) mdl) ∧
    ((∀ z : num, num_eqb z z = true) →
     ∀ x y, satisfies (assign (assign (rule_aggregate mdl)
                                 "v_flowback_rates" x)
                         "v_production_rates" y) mdl).
Proof.
  intros Hds Hdp Hrun.
  destruct (create_model_returns _ _ _ _ _ _ _ _ Hds Hdp Hrun)
    as (_ & si & pi & _ & _ & _ & _ & _ & Hm).
  exists (built_model si pi).
  assert (Hnames : ∀ n i e, (n, i, e) ∈ constraints (built_model si pi) →
            vr_name (lhs e) ≠ "v_flowback_rates" ∧
            vr_name (lhs e) ≠ "v_production_rates").
  { intros n i e. rewrite elem_of_constraints_built_model.
    intros [(-> & _)|[(_ & _ & ->)|(_ & d' & _ & _ & ->)]]; done. }
  assert (Hinv : ∀ σ x y n i e, (n, i, e) ∈ constraints (built_model si pi) →
       eval (assign (assign σ "v_flowback_rates" x) "v_production_rates" y) e
       = eval σ e).
  { intros σ x y n i e [H1 H2]%Hnames. by rewrite !eval_assign_other. }
  split_and!; try done.
  - by exists (drive_times_body si pi).
  - intros σ x y Hsat n i e He. rewrite (Hinv _ _ _ _ _ _ He).
    by apply (Hsat n i).
  - intros Hrefl x y n i e He. rewrite (Hinv _ _ _ _ _ _ He).
    unfold eval. rewrite (rule_aggregate_built si pi n i e He). apply Hrefl.
Qed.

Lemma C10_witness :
  ∃ mdl,
    (periods_heap ++ [PyModel periods_model]) !! 2 = Some (PyModel mdl) ∧
    get_var mdl "v_flowback_rates" = inr (VarRef "v_flowback_rates" None) ∧
    get_var mdl "v_production_rates" = inr (VarRef "v_production_rates" None) ∧
    (∀ n i e, (n, i, e) ∈ constraints mdl →
       vr_name (lhs e) ≠ "v_flowback_rates" ∧
       vr_name (lhs e) ≠ "v_production_rates") ∧
    (∃ e, lhs e = VarRef "v_drive_times" None ∧
          members mdl "e_flowback_rates" = [(None, e)] ∧
          members mdl "e_production_rates" = [(None, e)]) ∧
    (∀ (σ : assignment Z) x y n i e, (n, i, e) ∈ constraints mdl →
       eval (assign (assign σ "v_flowback_rates" x) "v_production_rates" y) e
       = eval σ e) ∧
    (∀ (σ : assignment Z) x y, satisfies σ mdl →
       satisfies (assign (assign σ "v_flowback_rates" x)
                    "v_production_rates" y) mdl) ∧
    ((∀ z : Z, num_eqb z z = true) →
     ∀ x y, satisfies (assign (assign (rule_aggregate mdl)
                                 "v_flowback_rates" x)
                         "v_production_rates" y) mdl).
Proof.
  apply (C10_flowback_production_unconstrained Pyomo_5_7 periods_heap 0 1
           periods_sets periods_parameters 2 _);
    [reflexivity | reflexivity | vm_compute; reflexivity].
Defined.

(** ** The first statement that fails *)

Lemma component_names_NoDup : NoDup component_names.
Proof. refine (bool_decide_unpack _ _); vm_compute; exact I. Qed.

(** A model whose names are the first [n] declared names has exactly the
    declared components before position [n]. *)
Lemma attached_prefix {num : Type} (mdl : block num) (n : nat) :
  map fst mdl = take n component_names →
  ∀ j name, component_names !! j = Some name →
    (is_Some (block_lookup name mdl) ↔ j < n).
Proof.
  intros Hm j name Hj. rewrite block_lookup_is_Some, Hm, elem_of_take.
  split.
  - intros (j' & Hj' & Hlt).
    by rewrite (NoDup_lookup _ _ _ _ component_names_NoDup Hj Hj').
  - intros Hlt. by exists j.
Qed.

Lemma first_absent_set_name `{Number num} (py : pyomo) (h : heap num)
    (ds dp : nat) (dS : gmap string (list string))
    (dP : gmap string (table num)) (pre suf : list string) (k : string) :
  h !! ds = Some (PyDictSets dS) →
  h !! dp = Some (PyDictParams dP) →
  set_names = pre ++ k :: suf →
  Forall (λ n, is_Some (dS !! n)) pre →
  dS !! k = None →
  ∃ mdl,
    create_model py ds dp h = (inl (KeyError k), h ++ [PyModel mdl]) ∧
    map fst mdl = take (length pre) ["p"; "c"; "a"; "d"; "t"].
Proof.
  intros Hds Hdp Hk Hpre Hnone.
  assert (Habs : ∀ si, sets_present dS si → False).
  { intros si Hsi%sets_present_all. rewrite Hk in Hsi.
    apply Forall_app in Hsi as [_ [Hsome _]%Forall_cons].
    rewrite Hnone in Hsome. by destruct Hsome. }
  assert (Hlen : length pre < 5).
  { apply (f_equal length) in Hk. rewrite length_app in Hk. cbn in Hk. lia. }
  destruct (create_model_total py ds dp h) as (r & h' & Hrun).
  destruct (create_model_outcome _ _ _ _ _ _ _ _ Hds Hdp Hrun)
    as (mdl & -> & Hex).
  exists mdl. rewrite Hrun.
  destruct r as [e|m]; cbn [explains] in Hex.
  2:{ destruct Hex as (_ & _ & si & _ & Hsi & _). by destruct (Habs si). }
  destruct e as [k'|comp|comp|callee given| | |]; try done.
  - destruct Hex as [(pre' & suf' & Hk' & Hpre' & Hnone' & Hnames)
                    |(si & _ & _ & _ & _ & Hsi & _)];
      [|by destruct (Habs si)].
    rewrite Hk in Hk'.
    destruct (first_failure_unique (λ n, is_Some (dS !! n))
                _ _ _ _ _ _ Hk' Hpre) as (<- & <- & _); try done.
    + rewrite Hnone. by intros [].
    + rewrite Hnone'. by intros [].
    + split; [done|]. rewrite Hnames.
      do 5 (destruct pre as [|? pre]; [reflexivity|]). cbn in Hlen. lia.
  - destruct Hex as (si & _ & _ & _ & _ & _ & Hsi & _).
    by destruct (Habs si).
  - destruct Hex as (_ & _ & si & _ & Hsi & _). by destruct (Habs si).
Qed.

(** X1: the set names are looked up in the order ProductionPads,
    CompletionsPads, ProductionTanks, SWDSites, TimePeriods.  When the names
    before [k] are present and [k] is absent, [create_model] raises
    [KeyError] for [k], whatever [df_parameters] holds and whatever the
    Pyomo release, and the model it leaves behind has the sets of the names
    before [k] and nothing else. *)
Theorem first_absent_set_name_is_reported `{Number num} (py : pyomo)
    (h : heap num) (ds dp : nat) (dS : gmap string (list string))
    (dP : gmap string (table num)) (pre suf : list string) (k : string) :
  h !! ds = Some (PyDictSets dS) →
  h !! dp = Some (PyDictParams dP) →
  set_names = pre ++ k :: suf →
  Forall (λ n, is_Some (dS !! n)) pre →
  dS !! k = None →
  ∃ mdl,
    create_model py ds dp h = (inl (KeyError k), h ++ [PyModel mdl]) ∧
    map fst mdl = take (length pre) ["p"; "c"; "a"; "d"; "t"].
Proof. apply first_absent_set_name. Qed.

Lemma first_absent_set_name_is_reported_witness :
  ∃ mdl,
    create_model Pyomo_5_7 0 1 pads_only =
      (inl (KeyError "ProductionTanks"), pads_only ++ [PyModel mdl]) ∧
    map fst mdl = take 2 ["p"; "c"; "a"; "d"; "t"].
Proof.
  apply (first_absent_set_name_is_reported Pyomo_5_7 pads_only 0 1
           pads_only_sets ∅
           ["ProductionPads"; "CompletionsPads"] ["SWDSites"; "TimePeriods"]
           "ProductionTanks");
    [reflexivity | reflexivity | reflexivity | | vm_compute; reflexivity].
  repeat constructor; vm_compute; by eexists.
Defined.

(** X2: with every set name present, the parameters are declared in source
    order and the first declaration that fails decides the outcome: when
    the declarations before [comp] find their tables with all keys inside
    their index sets and [comp] does not, [create_model] raises [KeyError]
    for the name [k] if [k] is absent, and the index [KeyError] of [comp] if
    the table of [k] has a key outside the index sets.  The model left
    behind has the six sets and the parameters declared before [comp], and
    no component declared after [comp].  It has [comp] itself, not
    constructed, exactly when the table was found: the name is looked up
    before the parameter is attached, and the keys are checked after. *)
Theorem first_bad_parameter_is_reported `{Number num} (py : pyomo)
    (h : heap num) (ds dp : nat) (dS : gmap string (list string))
    (dP : gmap string (table num)) (si : set_inputs)
    (pre suf : list (string * string * list (list string)))
    (k comp : string) (index : list (list string)) :
  h !! ds = Some (PyDictSets dS) →
  h !! dp = Some (PyDictParams dP) →
  sets_present dS si →
  param_specs si = pre ++ (k, comp, index) :: suf →
  Forall (param_ok dP) pre →
  ¬ param_ok dP (k, comp, index) →
  ∃ mdl,
    create_model py ds dp h =
      (inl (match dP !! k with
            | None => KeyError k
            | Some _ => KeyError_index comp
            end), h ++ [PyModel mdl]) ∧
    component_names !! (6 + length pre) = Some comp ∧
    (∀ j name, component_names !! j = Some name →
       (is_Some (block_lookup name mdl) ↔
        j < 6 + length pre + match dP !! k with Some _ => 1 | None => 0 end)) ∧
    block_lookup comp mdl =
      match dP !! k with Some _ => Some CDeclared | None => None end.
Proof.
  intros Hds Hdp Hsi Hk Hpre Hbad.
  assert (Hall : ∀ pi, params_present dP pi → params_valid si pi → False).
  { intros pi Hpi Hv. pose proof (params_ok_all _ _ _ Hpi Hv) as Hok.
    rewrite Hk in Hok. apply Forall_app in Hok as [_ [? _]%Forall_cons]. done. }
  assert (Hcomp : component_names !! (6 + length pre) = Some comp).
  { assert ((param_specs si).*1.*2 !! length pre = Some comp) as Hc.
    { rewrite Hk, !fmap_app, !fmap_cons. cbn.
      rewrite list_lookup_middle; [done|]. by rewrite !length_fmap. }
    change ((param_specs si).*1.*2) with (take 6 (drop 6 component_names)) in Hc.
    apply lookup_take_Some in Hc as [Hc _]. by rewrite lookup_drop in Hc. }
  destruct (create_model_total py ds dp h) as (r & h' & Hrun).
  destruct (create_model_outcome _ _ _ _ _ _ _ _ Hds Hdp Hrun)
    as (mdl & -> & Hex).
  exists mdl. rewrite Hrun.
  destruct r as [e|m]; cbn [explains] in Hex.
  2:{ destruct Hex as (_ & _ & si' & pi & Hsi' & Hpi & Hv & _).
      rewrite <- (sets_present_inj _ _ _ Hsi Hsi') in Hv. by destruct (Hall pi). }
  destruct e as [k'|comp'|comp'|callee given| | |]; try done.
  - destruct Hex as [(pre' & suf' & Hk' & _ & Hnone' & _)
                    |(si' & pre' & comp' & index' & suf' & Hsi' & Hk' &
                      Hpre' & Hnone' & Hnames)].
    + exfalso. apply sets_present_all in Hsi. rewrite Hk' in Hsi.
      apply Forall_app in Hsi as [_ [Hsome _]%Forall_cons].
      rewrite Hnone' in Hsome. by destruct Hsome.
    + rewrite <- (sets_present_inj _ _ _ Hsi Hsi'), Hk in Hk'.
      destruct (first_failure_unique (param_ok dP) _ _ _ _ _ _ Hk' Hpre)
        as (<- & [= <- <- <-] & _); try done.
      { intros (tbl & Htbl & _). cbn in Htbl. congruence. }
      rewrite Hnone'. split_and!; [done | done | |].
      * rewrite Nat.add_0_r. by apply attached_prefix.
      * apply eq_None_not_Some.
        rewrite (attached_prefix _ _ Hnames _ _ Hcomp). lia.
  - destruct Hex as (si' & pre' & k' & index' & suf' & tbl & Hsi' & Hk' &
                     Hpre' & Htbl & Hinv & Hnames & Hdecl).
    rewrite <- (sets_present_inj _ _ _ Hsi Hsi'), Hk in Hk'.
    destruct (first_failure_unique (param_ok dP) _ _ _ _ _ _ Hk' Hpre)
      as (<- & [= <- <- <-] & _); try done.
    { intros (tbl' & Htbl' & Hv'). cbn in Htbl', Hv'. congruence. }
    rewrite Htbl. split_and!; [done | done | | done].
    by apply attached_prefix.
  - destruct Hex as (_ & _ & si' & pi & Hsi' & Hpi & Hv & _).
    rewrite <- (sets_present_inj _ _ _ Hsi Hsi') in Hv. by destruct (Hall pi).
Qed.

Lemma first_bad_parameter_is_reported_witness :
  ∃ mdl,
    create_model Pyomo_5_7 0 1 stray_demand =
      (inl (match stray_demand_parameters !! "CompletionsDemand" with
            | None => KeyError "CompletionsDemand"
            | Some _ => KeyError_index "p_completion_demand"
            end), stray_demand ++ [PyModel mdl]) ∧
    component_names !! (6 + 1) = Some "p_completion_demand" ∧
    (∀ j name, component_names !! j = Some name →
       (is_Some (block_lookup name mdl) ↔
        j < 6 + 1 +
            match stray_demand_parameters !! "CompletionsDemand" with
            | Some _ => 1
            | None => 0
            end)) ∧
    block_lookup "p_completion_demand" mdl =
      match stray_demand_parameters !! "CompletionsDemand" with
      | Some _ => Some CDeclared
      | None => None
      end.
Proof.
  apply (first_bad_parameter_is_reported Pyomo_5_7 stray_demand 0 1
           static_sets stray_demand_parameters static_set_inputs
           [("DriveTimes", "p_drive_times",
             [set_l static_set_inputs; set_l static_set_inputs])]
           (drop 2 (param_specs static_set_inputs))
           "CompletionsDemand" "p_completion_demand"
           [set_c static_set_inputs; set_t static_set_inputs]);
    [reflexivity | reflexivity | repeat split; vm_compute; reflexivity
    | reflexivity | | ].
  - apply Forall_cons. split; [|by apply Forall_nil].
    exists {[ ["P1"; "C1"] := 7%Z ]}.
    split; [vm_compute; reflexivity|].
    refine (bool_decide_unpack _ _); vm_compute; exact I.
  - intros (tbl & Htbl & Hv).
    assert (tbl = {[ ["C1"; "T1"] := 5%Z ]}) as ->.
    { vm_compute in Htbl. injection Htbl as <-. vm_compute. reflexivity. }
    revert Hv.
    change (¬ valid_table [set_c static_set_inputs; set_t static_set_inputs]
                ({[ ["C1"; "T1"] := 5%Z ]} : table Z)).
    refine (bool_decide_unpack _ _). vm_compute. exact I.
Defined.





(** X5: whatever the outcome, the one object [create_model] allocates is
    a model that has, of the 24 components the script declares, exactly the
    first [n] in declaration order: a failed statement leaves every later
    component out.  All 24 are there exactly when [create_model]
    returns. *)
Theorem components_attached_in_order `{Number num} (py : pyomo)
    (h : heap num) (ds dp : nat) (dS : gmap string (list string))
    (dP : gmap string (table num)) (r : result nat) (h' : heap num) :
  h !! ds = Some (PyDictSets dS) →
  h !! dp = Some (PyDictParams dP) →
  create_model py ds dp h = (r, h') →
  ∃ mdl n,
    h' = h ++ [PyModel mdl] ∧
    (∀ j name, component_names !! j = Some name →
       (is_Some (block_lookup name mdl) ↔ j < n)) ∧
    (n = 24 ↔ ∃ m, r = inr m) ∧ (n ≤ 24)%nat.
Proof.
  intros Hds Hdp Hrun.
  destruct (create_model_outcome _ _ _ _ _ _ _ _ Hds Hdp Hrun)
    as (mdl & -> & Hex).
  assert (Hspecs : ∀ si pre x suf, param_specs si = pre ++ x :: suf →
            length pre < 6).
  { intros si pre x suf Heq. apply (f_equal length) in Heq.
    rewrite length_app in Heq. cbn in Heq. lia. }
  assert (Hsets : ∀ pre x suf, set_names = pre ++ x :: suf → length pre < 5).
  { intros pre x suf Heq. apply (f_equal length) in Heq.
    rewrite length_app in Heq. cbn in Heq. lia. }
  exists mdl.
  assert (Hgoal : ∀ n, map fst mdl = take n component_names →
            (n = 24 ↔ ∃ m, r = inr m) → (n ≤ 24)%nat →
            ∃ n, h ++ [PyModel mdl] = h ++ [PyModel mdl] ∧
                 (∀ j name, component_names !! j = Some name →
                    (is_Some (block_lookup name mdl) ↔ j < n)) ∧
                 (n = 24 ↔ ∃ m, r = inr m) ∧ (n ≤ 24)%nat).
  { intros n Hn Hiff Hle. exists n. split_and!; try done.
    by apply attached_prefix. }
  destruct r as [e|m]; cbn [explains] in Hex.
  2:{ destruct Hex as (_ & _ & si & pi & _ & _ & _ & ->).
      apply (Hgoal 24); [done| |lia]. split; [by eauto|done]. }
  assert (Hfail : ∀ n, n < 24 → n = 24 ↔ ∃ m, @inl exn nat e = inr m).
  { intros n Hn. split; [lia|]. by intros [? ?]. }
  destruct e as [k|comp|comp|callee given| | |]; try done.
  - destruct Hex as [(pre & suf & Hk & _ & _ & Hn)
                    |(si & pre & comp & index & suf & _ & Hk & _ & _ & Hn)].
    + apply Hsets in Hk. apply (Hgoal (length pre)); [done| |lia].
      apply Hfail. lia.
    + apply Hspecs in Hk. apply (Hgoal (6 + length pre)); [done| |lia].
      apply Hfail. lia.
  - destruct Hex as (si & pre & k & index & suf & tbl & _ & Hk & _ & _ & _ &
                     Hn & _).
    apply Hspecs in Hk. apply (Hgoal (6 + length pre + 1)); [done| |lia].
    apply Hfail. lia.
  - destruct Hex as (_ & -> & si & pi & _ & _ & _ & ->).
    apply (Hgoal 20); [done| |lia]. apply Hfail. lia.
Qed.

Lemma components_attached_in_order_witness :
  ∃ mdl n,
    (create_model Pyomo_6_1 0 1 scenario_heap).2 =
      scenario_heap ++ [PyModel mdl] ∧
    (∀ j name, component_names !! j = Some name →
       (is_Some (block_lookup name mdl) ↔ j < n)) ∧
    (n = 24 ↔ ∃ m, (create_model Pyomo_6_1 0 1 scenario_heap).1 = inr m) ∧
    (n ≤ 24)%nat.
Proof.
  apply (components_attached_in_order Pyomo_6_1 scenario_heap 0 1
           scenario_sets scenario_parameters);
    [reflexivity | reflexivity | vm_compute; reflexivity].
Defined.

(** ** The contents of a returned model *)

(** X6: in a returned model each of [p], [c], [a], [d], [t] is its input
    list unchanged when that list has no duplicate, and when the four
    location lists together have no duplicate, [l] is ProductionPads
    followed by CompletionsPads, ProductionTanks and SWDSites. *)
Theorem duplicate_free_labels_are_kept `{Number num} (py : pyomo)
    (h : heap num) (ds dp : nat) (dS : gmap string (list string))
    (dP : gmap string (table num)) (m : nat) (h' : heap num) :
  h !! ds = Some (PyDictSets dS) →
  h !! dp = Some (PyDictParams dP) →
  create_model py ds dp h = (inr m, h') →
  ∃ mdl si,
    h' !! m = Some (PyModel mdl) ∧ sets_present dS si ∧
    (NoDup (ProductionPads si) → get_set mdl "p" = inr (ProductionPads si)) ∧
    (NoDup (CompletionsPads si) → get_set mdl "c" = inr (CompletionsPads si)) ∧
    (NoDup (ProductionTanks si) → get_set mdl "a" = inr (ProductionTanks si)) ∧
    (NoDup (SWDSites si) → get_set mdl "d" = inr (SWDSites si)) ∧
    (NoDup (TimePeriods si) → get_set mdl "t" = inr (TimePeriods si)) ∧
    (NoDup (ProductionPads si ++ CompletionsPads si ++ ProductionTanks si ++
            SWDSites si) →
     get_set mdl "l" =
       inr (ProductionPads si ++ CompletionsPads si ++ ProductionTanks si ++
            SWDSites si)).
Proof.
  intros Hds Hdp Hrun.
  destruct (create_model_returns _ _ _ _ _ _ _ _ Hds Hdp Hrun)
    as (_ & si & pi & Hsi & _ & _ & _ & _ & Hm).
  exists (built_model si pi), si.
  split_and!; try done.
  - intros Hnd.
    change (inr (Set_elems (ProductionPads si)) = @inr exn _ (ProductionPads si)).
    by rewrite Set_elems_duplicate_free.
  - intros Hnd.
    change (inr (Set_elems (CompletionsPads si)) = @inr exn _ (CompletionsPads si)).
    by rewrite Set_elems_duplicate_free.
  - intros Hnd.
    change (inr (Set_elems (ProductionTanks si)) = @inr exn _ (ProductionTanks si)).
    by rewrite Set_elems_duplicate_free.
  - intros Hnd.
    change (inr (Set_elems (SWDSites si)) = @inr exn _ (SWDSites si)).
    by rewrite Set_elems_duplicate_free.
  - intros Hnd.
    change (inr (Set_elems (TimePeriods si)) = @inr exn _ (TimePeriods si)).
    by rewrite Set_elems_duplicate_free.
  - intros Hnd.
    change (inr (set_l si) =
            @inr exn _ (ProductionPads si ++ CompletionsPads si ++
                        ProductionTanks si ++ SWDSites si)).
    f_equal. unfold set_l, set_p, set_c, set_a, set_d.
    pose proof Hnd as Hall.
    apply NoDup_app in Hnd as (Hp & Hpd & Hnd).
    apply NoDup_app in Hnd as (Hc & Hcd & Hnd).
    apply NoDup_app in Hnd as (Ha & Had & Hd).
    rewrite (Set_elems_duplicate_free (ProductionPads si)),
      (Set_elems_duplicate_free (CompletionsPads si)),
      (Set_elems_duplicate_free (ProductionTanks si)),
      (Set_elems_duplicate_free (SWDSites si)) by done.
    rewrite (SetUnion_disjoint (ProductionPads si)).
    2:{ intros x Hx Hin. apply (Hpd x Hin). rewrite elem_of_app. by left. }
    rewrite (SetUnion_disjoint _ (ProductionTanks si)).
    2:{ intros x Hx [Hin|Hin]%elem_of_app.
        - apply (Hpd x Hin). rewrite !elem_of_app. right; by left.
        - apply (Hcd x Hin). rewrite elem_of_app. by left. }
    rewrite (SetUnion_disjoint _ (SWDSites si)).
    2:{ intros x Hx [[Hin|Hin]%elem_of_app|Hin]%elem_of_app.
        - apply (Hpd x Hin). rewrite !elem_of_app. right; by right.
        - apply (Hcd x Hin). rewrite elem_of_app. by right.
        - by apply (Had x Hin). }
    rewrite <- !app_assoc. by rewrite Set_elems_duplicate_free.
Qed.

Lemma duplicate_free_labels_are_kept_witness :
  ∃ mdl si,
    (periods_heap ++ [PyModel periods_model]) !! 2 = Some (PyModel mdl) ∧
    sets_present periods_sets si ∧
    (NoDup (ProductionPads si) → get_set mdl "p" = inr (ProductionPads si)) ∧
    (NoDup (CompletionsPads si) → get_set mdl "c" = inr (CompletionsPads si)) ∧
    (NoDup (ProductionTanks si) → get_set mdl "a" = inr (ProductionTanks si)) ∧
    (NoDup (SWDSites si) → get_set mdl "d" = inr (SWDSites si)) ∧
    (NoDup (TimePeriods si) → get_set mdl "t" = inr (TimePeriods si)) ∧
    (NoDup (ProductionPads si ++ CompletionsPads si ++ ProductionTanks si ++
            SWDSites si) →
     get_set mdl "l" =
       inr (ProductionPads si ++ CompletionsPads si ++ ProductionTanks si ++
            SWDSites si)).
Proof.
  apply (duplicate_free_labels_are_kept Pyomo_5_7 periods_heap 0 1
           periods_sets periods_parameters 2 _);
    [reflexivity | reflexivity | vm_compute; reflexivity].
Defined.

(** X7: in a returned model every parameter has the index sets of its
    declaration and reads back its table: an entry of the table is at a
    valid index and is the parameter's value there; at a valid index
    without entry the value is the default 0; a subscript outside the index
    sets raises the index [KeyError] of the parameter. *)
Theorem parameters_hold_their_tables `{Number num} (py : pyomo)
    (h : heap num) (ds dp : nat) (dS : gmap string (list string))
    (dP : gmap string (table num)) (m : nat) (h' : heap num) :
  h !! ds = Some (PyDictSets dS) →
  h !! dp = Some (PyDictParams dP) →
  create_model py ds dp h = (inr m, h') →
  ∃ mdl si,
    h' !! m = Some (PyModel mdl) ∧ sets_present dS si ∧
    ∀ k comp index, (k, comp, index) ∈ param_specs si →
      ∃ tbl P,
        dP !! k = Some tbl ∧ get_param mdl comp = inr P ∧
        param_index P = index ∧
        (∀ key v, tbl !! key = Some v →
           valid_index index key ∧ P.[key] = inr v) ∧
        (∀ key, valid_index index key → tbl !! key = None →
           P.[key] = inr num_zero) ∧
        (∀ key, ¬ valid_index index key →
           P.[key] = inl (KeyError_index comp)).
Proof.
  intros Hds Hdp Hrun.
  destruct (create_model_returns _ _ _ _ _ _ _ _ Hds Hdp Hrun)
    as (_ & si & pi & Hsi & Hpi & Hv & _ & _ & Hm).
  exists (built_model si pi), si. split_and!; try done.
  assert (Hget : ∀ comp index tbl, valid_table index tbl →
      (∀ key v, tbl !! key = Some v →
         valid_index index key ∧ (mkParam comp index tbl).[key] = inr v) ∧
      (∀ key, valid_index index key → tbl !! key = None →
         (mkParam comp index tbl).[key] = inr num_zero) ∧
      (∀ key, ¬ valid_index index key →
         (mkParam comp index tbl).[key] = inl (KeyError_index comp))).
  { intros comp index tbl Hvalid. split_and!.
    - intros key v Hkey. pose proof (Hvalid key v Hkey) as Hin.
      split; [done|]. rewrite Param_getitem_valid by done.
      unfold param_value. cbn. by rewrite Hkey.
    - intros key Hin Hkey. rewrite Param_getitem_valid by done.
      unfold param_value. cbn. by rewrite Hkey.
    - intros key Hout. by rewrite Param_getitem_invalid. }
  destruct Hpi as (?&?&?&?&?&?). destruct Hv as (?&?&?&?&?&?).
  intros k comp index Hk.
  unfold param_specs in Hk. rewrite !elem_of_cons, elem_of_nil in Hk.
  destruct Hk as [Hk|[Hk|[Hk|[Hk|[Hk|[Hk|[]]]]]]]; simplify_eq;
    eexists _, _; (split; [eassumption|]); (split; [reflexivity|]);
    (split; [reflexivity|]); by apply Hget.
Qed.

Lemma parameters_hold_their_tables_witness :
  ∃ mdl si,
    (periods_heap ++ [PyModel periods_model]) !! 2 = Some (PyModel mdl) ∧
    sets_present periods_sets si ∧
    ∀ k comp index, (k, comp, index) ∈ param_specs si →
      ∃ tbl P,
        periods_parameters !! k = Some tbl ∧ get_param mdl comp = inr P ∧
        param_index P = index ∧
        (∀ key v, tbl !! key = Some v →
           valid_index index key ∧ P.[key] = inr v) ∧
        (∀ key, valid_index index key → tbl !! key = None →
           P.[key] = inr num_zero) ∧
        (∀ key, ¬ valid_index index key →
           P.[key] = inl (KeyError_index comp)).
Proof.
  apply (parameters_hold_their_tables Pyomo_5_7 periods_heap 0 1 periods_sets
           periods_parameters 2 _);
    [reflexivity | reflexivity | vm_compute; reflexivity].
Defined.

(** X8: every constraint member of a returned model constrains a variable
    the model declares, within NonNegativeReals, at an index the variable
    has: a scalar variable, or an indexed one at a label of its index set.
    The index of the variable is the index of the member, except for the
    members of [e_completion_demand], which are indexed by the labels of
    [t] and all constrain the scalar [v_drive_times]. *)
Theorem constraints_mention_declared_variables `{Number num} (py : pyomo)
    (h : heap num) (ds dp : nat) (dS : gmap string (list string))
    (dP : gmap string (table num)) (m : nat) (h' : heap num) :
  h !! ds = Some (PyDictSets dS) →
  h !! dp = Some (PyDictParams dP) →
  create_model py ds dp h = (inr m, h') →
  ∃ mdl t,
    h' !! m = Some (PyModel mdl) ∧ get_set mdl "t" = inr t ∧
    (∀ n i e, (n, i, e) ∈ constraints mdl →
       (∃ V, block_lookup (vr_name (lhs e)) mdl = Some (CVar V) ∧
             var_within V = NonNegativeReals ∧
             match vr_index (lhs e) with
             | None => var_index V = None
             | Some j => ∃ idx, var_index V = Some idx ∧ j ∈ idx
             end) ∧
       (if String.eqb n "e_completion_demand"
        then lhs e = VarRef "v_drive_times" None ∧ ∃ t', i = Some t' ∧ t' ∈ t
        else vr_index (lhs e) = i)) ∧
    (∀ t', t' ∈ t →
       ∃ e, ("e_completion_demand", Some t', e) ∈ constraints mdl).
Proof.
  intros Hds Hdp Hrun.
  destruct (create_model_returns _ _ _ _ _ _ _ _ Hds Hdp Hrun)
    as (_ & si & pi & _ & _ & _ & _ & _ & Hm).
  exists (built_model si pi), (set_t si). split_and!; [done..| |].
  - intros n i e. rewrite elem_of_constraints_built_model.
    intros [(-> & [(-> & [->|[->| ->]])|(-> & t' & Ht & ->)])
           |[(-> & -> & ->)|(-> & d' & Hd & -> & ->)]];
      (split; [eexists; (split; [reflexivity|]); (split; [reflexivity|]);
               cbn; eauto | cbn; eauto]).
  - intros t' Ht. exists (drive_times_body si pi).
    apply elem_of_constraints_built_model. left. split; [done|]. right.
    split; [done|]. by exists t'.
Qed.

Lemma constraints_mention_declared_variables_witness :
  ∃ mdl t,
    (periods_heap ++ [PyModel periods_model]) !! 2 = Some (PyModel mdl) ∧
    get_set mdl "t" = inr t ∧
    (∀ n i e, (n, i, e) ∈ constraints mdl →
       (∃ V, block_lookup (vr_name (lhs e)) mdl = Some (CVar V) ∧
             var_within V = NonNegativeReals ∧
             match vr_index (lhs e) with
             | None => var_index V = None
             | Some j => ∃ idx, var_index V = Some idx ∧ j ∈ idx
             end) ∧
       (if String.eqb n "e_completion_demand"
        then lhs e = VarRef "v_drive_times" None ∧ ∃ t', i = Some t' ∧ t' ∈ t
        else vr_index (lhs e) = i)) ∧
    (∀ t', t' ∈ t →
       ∃ e, ("e_completion_demand", Some t', e) ∈ constraints mdl).
Proof.
  apply (constraints_mention_declared_variables Pyomo_5_7 periods_heap 0 1
           periods_sets periods_parameters 2 _);
    [reflexivity | reflexivity | vm_compute; reflexivity].
Defined.



(** X15: the model [create_model] builds depends on the contents of the two
    dictionaries only: when a call returns a model, a call under the same
    release on any heap, at any locations, whose dictionaries have the same
    contents returns a model with the same components. *)
Theorem model_depends_on_dictionaries_only `{Number num} (py : pyomo)
    (h1 h2 : heap num) (ds1 dp1 ds2 dp2 : nat)
    (dS : gmap string (list string)) (dP : gmap string (table num))
    (m1 : nat) (h1' : heap num) :
  h1 !! ds1 = Some (PyDictSets dS) →
  h1 !! dp1 = Some (PyDictParams dP) →
  h2 !! ds2 = Some (PyDictSets dS) →
  h2 !! dp2 = Some (PyDictParams dP) →
  create_model py ds1 dp1 h1 = (inr m1, h1') →
  ∃ m2 h2',
    create_model py ds2 dp2 h2 = (inr m2, h2') ∧ h2' !! m2 = h1' !! m1.
Proof.
  intros Hds1 Hdp1 Hds2 Hdp2 Hrun1.
  destruct (create_model_returns _ _ _ _ _ _ _ _ Hds1 Hdp1 Hrun1)
    as (-> & si & pi & Hsi & Hpi & Hv & _ & _ & Hm1).
  rewrite (create_model_runs Pyomo_5_7 h2 ds2 dp2 dS dP si pi) by done.
  eexists _, _. split; [done|]. by rewrite Hm1, model_lookup.
Qed.

Lemma model_depends_on_dictionaries_only_witness :
  ∃ m2 h2',
    create_model Pyomo_5_7 1 2 (PyModel [] :: periods_heap) = (inr m2, h2') ∧
    h2' !! m2 = (periods_heap ++ [PyModel periods_model]) !! 2.
Proof.
  apply (model_depends_on_dictionaries_only Pyomo_5_7 periods_heap
           (PyModel [] :: periods_heap) 0 1 1 2 periods_sets
           periods_parameters 2 (periods_heap ++ [PyModel periods_model]));
    [reflexivity | reflexivity | reflexivity | reflexivity
    | vm_compute; reflexivity].
Defined.

(** ** The rule functions that are not registered *)

(** X10: [CompletionDemandRule] is defined and never registered.  On a
    returned model, [CompletionDemandRule(model, t')] returns, for every
    label [t'] of [t],
    [v_completion_demand[t'] == sum of p_completion_demand[c', t'] over c' in c],
    every subscript being inside the index sets; for a [t'] outside [t] it
    raises the index [KeyError] of [v_completion_demand].  In exact
    arithmetic the sum is the aggregate of the parameter over the tuples
    whose second position is [t']. *)
Theorem CompletionDemandRule_sums_over_c `{Number num} (py : pyomo)
    (h : heap num) (ds dp : nat) (dS : gmap string (list string))
    (dP : gmap string (table num)) (m : nat) (h' : heap num) :
  h !! ds = Some (PyDictSets dS) →
  h !! dp = Some (PyDictParams dP) →
  create_model py ds dp h = (inr m, h') →
  ∃ mdl c t P,
    h' !! m = Some (PyModel mdl) ∧
    get_set mdl "c" = inr c ∧ get_set mdl "t" = inr t ∧
    get_param mdl "p_completion_demand" = inr P ∧ param_index P = [c; t] ∧
    (∀ t', t' ∈ t →
       call2 CompletionDemandRule mdl t' =
       inr (VarRef "v_completion_demand" (Some t') ==
            sum_over (λ c', param_value P [c'; t']) c)) ∧
    (∀ t', t' ∉ t →
       call2 CompletionDemandRule mdl t' =
       inl (KeyError_index "v_completion_demand")) ∧
    (ExactNumber num → ∀ t',
       sum_over (λ c', param_value P [c'; t']) c =
       total (map (param_value P) (tuples [c; [t']]))).
Proof.
  intros Hds Hdp Hrun.
  destruct (create_model_returns _ _ _ _ _ _ _ _ Hds Hdp Hrun)
    as (_ & si & pi & _ & _ & _ & _ & _ & Hm).
  exists (built_model si pi), (set_c si), (set_t si). eexists.
  split_and!; [done | reflexivity | reflexivity | reflexivity | reflexivity
              | | |].
  - intros t' Ht. by apply CompletionDemandRule_built.
  - intros t' Ht. by apply CompletionDemandRule_built_outside.
  - intros Hexact t'. by rewrite sum_tuples_fixed_1.
Qed.

Lemma CompletionDemandRule_sums_over_c_witness :
  ∃ mdl c t P,
    (periods_heap ++ [PyModel periods_model]) !! 2 = Some (PyModel mdl) ∧
    get_set mdl "c" = inr c ∧ get_set mdl "t" = inr t ∧
    get_param mdl "p_completion_demand" = inr P ∧ param_index P = [c; t] ∧
    (∀ t', t' ∈ t →
       call2 CompletionDemandRule mdl t' =
       inr (VarRef "v_completion_demand" (Some t') ==
            sum_over (λ c', param_value P [c'; t']) c)) ∧
    (∀ t', t' ∉ t →
       call2 CompletionDemandRule mdl t' =
       inl (KeyError_index "v_completion_demand")) ∧
    (ExactNumber Z → ∀ t',
       sum_over (λ c', param_value P [c'; t']) c =
       total (map (param_value P) (tuples [c; [t']]))).
Proof.
  apply (CompletionDemandRule_sums_over_c Pyomo_5_7 periods_heap 0 1
           periods_sets periods_parameters 2 _);
    [reflexivity | reflexivity | vm_compute; reflexivity].
Defined.

(** X11: [FlowBackRatesRule] is defined and never registered.  On a
    returned model [FlowBackRatesRule(model)] returns [v_flowback_rates]
    equal to the nested sum of [p_flowback_rates[c', t']] over [c'] in [c],
    then over [t'] in [t], every subscript being inside the index sets; in
    exact arithmetic that is the sum of the parameter over [c x t].  No
    constraint of the model has that variable. *)
Theorem FlowBackRatesRule_sums_over_c_t `{Number num} (py : pyomo)
    (h : heap num) (ds dp : nat) (dS : gmap string (list string))
    (dP : gmap string (table num)) (m : nat) (h' : heap num) :
  h !! ds = Some (PyDictSets dS) →
  h !! dp = Some (PyDictParams dP) →
  create_model py ds dp h = (inr m, h') →
  ∃ mdl c t P,
    h' !! m = Some (PyModel mdl) ∧
    get_set mdl "c" = inr c ∧ get_set mdl "t" = inr t ∧
    get_param mdl "p_flowback_rates" = inr P ∧ param_index P = [c; t] ∧
    call1 FlowBackRatesRule mdl =
      inr (VarRef "v_flowback_rates" None ==
           sum_over (λ t', sum_over (λ c', param_value P [c'; t']) c) t) ∧
    (ExactNumber num →
       sum_over (λ t', sum_over (λ c', param_value P [c'; t']) c) t =
       total (map (param_value P) (tuples [c; t]))) ∧
    (∀ n i e, (n, i, e) ∈ constraints mdl →
       lhs e ≠ VarRef "v_flowback_rates" None).
Proof.
  intros Hds Hdp Hrun.
  destruct (create_model_returns _ _ _ _ _ _ _ _ Hds Hdp Hrun)
    as (_ & si & pi & _ & _ & _ & _ & _ & Hm).
  exists (built_model si pi), (set_c si), (set_t si). eexists.
  split_and!; [done | reflexivity | reflexivity | reflexivity | reflexivity
              | | |].
  - apply FlowBackRatesRule_built.
  - intros Hexact. by rewrite sum_tuples_2.
  - intros n i e. rewrite elem_of_constraints_built_model.
    intros [(-> & _)|[(_ & _ & ->)|(_ & d' & _ & _ & ->)]]; discriminate.
Qed.

Lemma FlowBackRatesRule_sums_over_c_t_witness :
  ∃ mdl c t P,
    (periods_heap ++ [PyModel periods_model]) !! 2 = Some (PyModel mdl) ∧
    get_set mdl "c" = inr c ∧ get_set mdl "t" = inr t ∧
    get_param mdl "p_flowback_rates" = inr P ∧ param_index P = [c; t] ∧
    call1 FlowBackRatesRule mdl =
      inr (VarRef "v_flowback_rates" None ==
           sum_over (λ t', sum_over (λ c', param_value P [c'; t']) c) t) ∧
    (ExactNumber Z →
       sum_over (λ t', sum_over (λ c', param_value P [c'; t']) c) t =
       total (map (param_value P) (tuples [c; t]))) ∧
    (∀ n i e, (n, i, e) ∈ constraints mdl →
       lhs e ≠ VarRef "v_flowback_rates" None).
Proof.
  apply (FlowBackRatesRule_sums_over_c_t Pyomo_5_7 periods_heap 0 1
           periods_sets periods_parameters 2 _);
    [reflexivity | reflexivity | vm_compute; reflexivity].
Defined.

(** X12: [ProductionRatesRule] is defined and never registered.  On a
    returned model [ProductionRatesRule(model)] returns
    [v_production_rates] equal to the nested sum of
    [p_production_rates[p', a', t']] over [p'] in [p], then [a'] in [a],
    then [t'] in [t], every subscript being inside the index sets; in exact
    arithmetic that is the sum of the parameter over [p x a x t].  No
    constraint of the model has that variable. *)
Theorem ProductionRatesRule_sums_over_p_a_t `{Number num} (py : pyomo)
    (h : heap num) (ds dp : nat) (dS : gmap string (list string))
    (dP : gmap string (table num)) (m : nat) (h' : heap num) :
  h !! ds = Some (PyDictSets dS) →
  h !! dp = Some (PyDictParams dP) →
  create_model py ds dp h = (inr m, h') →
  ∃ mdl p a t P,
    h' !! m = Some (PyModel mdl) ∧
    get_set mdl "p" = inr p ∧ get_set mdl "a" = inr a ∧
    get_set mdl "t" = inr t ∧
    get_param mdl "p_production_rates" = inr P ∧ param_index P = [p; a; t] ∧
    call1 ProductionRatesRule mdl =
      inr (VarRef "v_production_rates" None ==
           sum_over (λ t', sum_over (λ a',
             sum_over (λ p', param_value P [p'; a'; t']) p) a) t) ∧
    (ExactNumber num →
       sum_over (λ t', sum_over (λ a',
         sum_over (λ p', param_value P [p'; a'; t']) p) a) t =
       total (map (param_value P) (tuples [p; a; t]))) ∧
    (∀ n i e, (n, i, e) ∈ constraints mdl →
       lhs e ≠ VarRef "v_production_rates" None).
Proof.
  intros Hds Hdp Hrun.
  destruct (create_model_returns _ _ _ _ _ _ _ _ Hds Hdp Hrun)
    as (_ & si & pi & _ & _ & _ & _ & _ & Hm).
  exists (built_model si pi), (set_p si), (set_a si), (set_t si). eexists.
  split_and!; [done | reflexivity | reflexivity | reflexivity | reflexivity
              | reflexivity | | |].
  - apply ProductionRatesRule_built.
  - intros Hexact. by rewrite sum_tuples_3.
  - intros n i e. rewrite elem_of_constraints_built_model.
    intros [(-> & _)|[(_ & _ & ->)|(_ & d' & _ & _ & ->)]]; discriminate.
Qed.

Lemma ProductionRatesRule_sums_over_p_a_t_witness :
  ∃ mdl p a t P,
    (periods_heap ++ [PyModel periods_model]) !! 2 = Some (PyModel mdl) ∧
    get_set mdl "p" = inr p ∧ get_set mdl "a" = inr a ∧
    get_set mdl "t" = inr t ∧
    get_param mdl "p_production_rates" = inr P ∧ param_index P = [p; a; t] ∧
    call1 ProductionRatesRule mdl =
      inr (VarRef "v_production_rates" None ==
           sum_over (λ t', sum_over (λ a',
             sum_over (λ p', param_value P [p'; a'; t']) p) a) t) ∧
    (ExactNumber Z →
       sum_over (λ t', sum_over (λ a',
         sum_over (λ p', param_value P [p'; a'; t']) p) a) t =
       total (map (param_value P) (tuples [p; a; t]))) ∧
    (∀ n i e, (n, i, e) ∈ constraints mdl →
       lhs e ≠ VarRef "v_production_rates" None).
Proof.
  apply (ProductionRatesRule_sums_over_p_a_t Pyomo_5_7 periods_heap 0 1
           periods_sets periods_parameters 2 _);
    [reflexivity | reflexivity | vm_compute; reflexivity].
Defined.

(** ** The script *)

